(** * Loftwing, CLoftwing/time.c: the monotonic microsecond clock [getTimeUsec]

    A shallow embedding of [Sources/CLoftwing/src/time.c] and of its copy
    [Sources/CLoftwing/time.c], with the properties of the conversion
    arithmetic, of the failure paths, of the frequency cache and of the
    build-time platform selection.

    Conventions.
    - A 64-bit C integer is a [Z]; every arithmetic operation writes its
      wrap-around out ([Int64.wrap], [UInt64.wrap]).  Division by zero, and
      the one signed quotient that does not fit, are traps ([exec]).
    - Operating-system primitives are inputs: what each of them answers
      during one call of [getTimeUsec] is a field of a record.
    - The [static] frequency cache is threaded explicitly: a call takes the
      value of the cache before it and gives the value after it. *)

From Stdlib Require Import ZArith Lia List Sorted.
From stdpp Require Import base relations gmap strings.
Import ListNotations.

#[local] Open Scope Z_scope.

(** ** Outcome of evaluating a C expression *)

Inductive trap : Type :=
| DivideByZero
| DivideOverflow.

Inductive exec (A : Type) : Type :=
| Ok (a : A)
| Trap (t : trap).

Arguments Ok {A} a.
Arguments Trap {A} t.

Definition exec_bind {A B : Type} (m : exec A) (k : A -> exec B) : exec B :=
  match m with
  | Ok a => k a
  | Trap t => Trap t
  end.

Notation "'let*' x ':=' m 'in' k" :=
  (exec_bind m (fun x => k))
  (at level 10, x name, m at level 100, k at level 200, only parsing).

(** ** 64-bit machine integers *)

Module Int64.

Definition modulus : Z := 2 ^ 64.
Definition min_signed : Z := - 2 ^ 63.
Definition max_signed : Z := 2 ^ 63 - 1.

Definition in_range (z : Z) : Prop := min_signed <= z <= max_signed.

(** The value an [int64_t] holds after the mathematical result [z] has
    been reduced modulo [2^64] (two's complement). *)
Definition wrap (z : Z) : Z := (z - min_signed) mod modulus + min_signed.

Definition add (a b : Z) : Z := wrap (a + b).
Definition mul (a b : Z) : Z := wrap (a * b).

(** C's [/] and [%] truncate towards zero: [Z.quot] and [Z.rem]. *)
Definition div (a b : Z) : exec Z :=
  if b =? 0 then Trap DivideByZero
  else if (a =? min_signed) && (b =? -1) then Trap DivideOverflow
  else Ok (Z.quot a b).

Definition rem (a b : Z) : exec Z :=
  if b =? 0 then Trap DivideByZero
  else if (a =? min_signed) && (b =? -1) then Trap DivideOverflow
  else Ok (Z.rem a b).

End Int64.

Module UInt64.

Definition modulus : Z := 2 ^ 64.
Definition in_range (z : Z) : Prop := 0 <= z < modulus.
Definition wrap (z : Z) : Z := z mod modulus.

Definition mul (a b : Z) : Z := wrap (a * b).

Definition div (a b : Z) : exec Z :=
  if b =? 0 then Trap DivideByZero else Ok (a / b).

End UInt64.

(** ** The result type [Time] *)

(** Modelled from the spec: [include/time.h], which declares [Time], is not
    among the sources.  The spec's data model says a 64-bit unsigned or
    signed integer; both typedefs are covered and every statement below is
    for either of them. *)
Inductive Time_typedef : Type :=
| Time_int64_t
| Time_uint64_t.

(** Conversion of the value of a 64-bit expression to [Time] at [return]. *)
Definition to_Time (T : Time_typedef) (z : Z) : Z :=
  match T with
  | Time_int64_t => Int64.wrap z
  | Time_uint64_t => UInt64.wrap z
  end.

(** ** Operating-system primitives, as answers given during one call *)

(** [QueryPerformanceFrequency(&freq)]: a zero [BOOL] and [freq] left as it
    was, or a nonzero [BOOL] and the frequency stored in [freq.QuadPart]. *)
Inductive QPF_result : Type :=
| QPF_fails
| QPF_succeeds (f : Z).

(** [QueryPerformanceCounter(&count)]. *)
Inductive QPC_result : Type :=
| QPC_fails
| QPC_succeeds (count : Z).

Record win32_os : Type := {
  QueryPerformanceFrequency : QPF_result;
  QueryPerformanceCounter : QPC_result
}.

(** [struct timespec], with a 64-bit [time_t] and a 64-bit [long]. *)
Record timespec : Type := {
  tv_sec : Z;
  tv_nsec : Z
}.

(** [ra_clock_gettime(CLOCK_MONOTONIC, &tv)]: the [int] it returns and what
    [tv] holds afterwards ([tv] is zero-initialised before the call). *)
Record clock_gettime_result : Type := {
  clock_status : Z;
  clock_tv : timespec
}.

(** Primitives a call has invoked, in order. *)
Inductive syscall : Type :=
| Call_QueryPerformanceFrequency
| Call_QueryPerformanceCounter
| Call_sysGetSystemTime
| Call_sys_time_get_system_time
| Call_gettime
| Call_OSGetSystemTime
| Call_svcGetSystemTick
| Call_osGetTime
| Call_ra_clock_gettime
| Call_emscripten_get_now
| Call_ps2_clock
| Call_sceKernelGetSystemTimeWide.

(** What one call of [getTimeUsec] does: the value returned (or a trap), the
    frequency cache after the call, and the primitives invoked. *)
Record call : Type := {
  ret : exec Z;
  freq_after : Z;
  calls : list syscall
}.

(** Parts of the platform SDKs that the branches use and that no source
    file of the repository defines.  They are parameters: nothing is stated
    about the values they compute (in C the conversion of a [double] to
    [Time] is undefined for a NaN and for a value out of range). *)
Record platform_sdk : Type := {
  double : Type;
  double_mul_int : double -> Z -> double;
  double_to_Time : Time_typedef -> double -> Z;
  ticks_to_microsecs : Z -> Z;
  ticks_to_us : Z -> Z;
  PS2_CLOCKS_PER_MSEC : Z
}.

(** The raw readings available to one call, one per primitive. *)
Record readings (sdk : platform_sdk) : Type := {
  rd_win32 : win32_os;
  rd_sysGetSystemTime : Z;
  rd_sys_time_get_system_time : Z;
  rd_gettime : Z;
  rd_OSGetSystemTime : Z;
  rd_svcGetSystemTick : Z;
  rd_osGetTime : Z;
  rd_ra_clock_gettime : clock_gettime_result;
  rd_emscripten_get_now : double sdk;
  rd_ps2_clock : Z;
  rd_sceKernelGetSystemTimeWide : Z
}.

Arguments rd_win32 {sdk} _.
Arguments rd_sysGetSystemTime {sdk} _.
Arguments rd_sys_time_get_system_time {sdk} _.
Arguments rd_gettime {sdk} _.
Arguments rd_OSGetSystemTime {sdk} _.
Arguments rd_svcGetSystemTick {sdk} _.
Arguments rd_osGetTime {sdk} _.
Arguments rd_ra_clock_gettime {sdk} _.
Arguments rd_emscripten_get_now {sdk} _.
Arguments rd_ps2_clock {sdk} _.
Arguments rd_sceKernelGetSystemTimeWide {sdk} _.

(** ** The preprocessor *)

(** The macros defined where the [#if] chain is read. *)
Definition defined (D : gset string) (m : string) : bool := bool_decide (m ∈ D).

(** The branches of the [#if] chain, in source order. *)
Inductive strategy : Type :=
| WIN32
| PSL1GHT
| PS3
| GEKKO
| WIIU
| SWITCH
| N3DS
| POSIX
| EMSCRIPTEN
| PS2
| VITA.

(** The macros the chain tests. *)
Definition recognized_macros : list string :=
  [ "_WIN32"; "__PSL1GHT__"; "__PS3__"; "GEKKO"; "WIIU"; "SWITCH";
    "HAVE_LIBNX"; "_3DS"; "_POSIX_MONOTONIC_CLOCK"; "__QNX__"; "ANDROID";
    "__MACH__"; "DJGPP"; "EMSCRIPTEN"; "PS2"; "VITA"; "PSP" ]%string.

(** ** src/time.c *)

Module SrcTimeC.

(** The [#if] / [#elif] / [#else #error] chain of [getTimeUsec]:
    the branch compiled, or the diagnostic of [#error]. *)
Definition preprocess (D : gset string) : strategy + string :=
  if defined D "_WIN32" then inl WIN32
  else if defined D "__PSL1GHT__" then inl PSL1GHT
  else if negb (defined D "__PSL1GHT__") && defined D "__PS3__" then inl PS3
  else if defined D "GEKKO" then inl GEKKO
  else if defined D "WIIU" then inl WIIU
  else if defined D "SWITCH" || defined D "HAVE_LIBNX" then inl SWITCH
  else if defined D "_3DS" then inl N3DS
  else if defined D "_POSIX_MONOTONIC_CLOCK" || defined D "__QNX__"
          || defined D "ANDROID" || defined D "__MACH__"
          || defined D "DJGPP" then inl POSIX
  else if defined D "EMSCRIPTEN" then inl EMSCRIPTEN
  else if defined D "PS2" then inl PS2
  else if defined D "VITA" || defined D "PSP" then inl VITA
  else inr "Your platform does not have a timer function implemented in cpu_features_get_time_usec(). Cannot continue."%string.

(** [(count.QuadPart / freq.QuadPart * 1000000)
     + (count.QuadPart % freq.QuadPart * 1000000 / freq.QuadPart)]
    on [LONGLONG]. *)
Definition win32_usec (count freq : Z) : exec Z :=
  let* q := Int64.div count freq in
  let* r := Int64.rem count freq in
  let* d := Int64.div (Int64.mul r 1000000) freq in
  Ok (Int64.add (Int64.mul q 1000000) d).

(** The [_WIN32] branch.  [freq] is the [static LARGE_INTEGER freq]
    (zero when the process starts). *)
Definition getTimeUsec_win32 (T : Time_typedef) (os : win32_os) (freq : Z) : call :=
  (* if (!freq.QuadPart && !QueryPerformanceFrequency(&freq)) return 0; *)
  let '(returns_early, freq1, calls1) :=
    if freq =? 0 then
      match QueryPerformanceFrequency os with
      | QPF_fails => (true, freq, [Call_QueryPerformanceFrequency])
      | QPF_succeeds f => (false, f, [Call_QueryPerformanceFrequency])
      end
    else (false, freq, [])
  in
  if returns_early : bool then
    {| ret := Ok (to_Time T 0); freq_after := freq1; calls := calls1 |}
  else
    (* if (!QueryPerformanceCounter(&count)) return 0; *)
    match QueryPerformanceCounter os with
    | QPC_fails =>
        {| ret := Ok (to_Time T 0); freq_after := freq1;
           calls := calls1 ++ [Call_QueryPerformanceCounter] |}
    | QPC_succeeds count =>
        {| ret := (let* us := win32_usec count freq1 in Ok (to_Time T us));
           freq_after := freq1;
           calls := calls1 ++ [Call_QueryPerformanceCounter] |}
    end.

(** [tv.tv_sec * INT64_C(1000000) + (tv.tv_nsec + 500) / 1000]. *)
Definition posix_usec (tv : timespec) : exec Z :=
  let* us := Int64.div (Int64.add (tv_nsec tv) 500) 1000 in
  Ok (Int64.add (Int64.mul (tv_sec tv) 1000000) us).

(** The [_POSIX_MONOTONIC_CLOCK] branch. *)
Definition getTimeUsec_posix (T : Time_typedef) (r : clock_gettime_result) : exec Z :=
  (* if (ra_clock_gettime(CLOCK_MONOTONIC, &tv) < 0) return 0; *)
  if clock_status r <? 0 then Ok (to_Time T 0)
  else let* us := posix_usec (clock_tv r) in Ok (to_Time T us).

(** A branch that keeps no state. *)
Definition stateless (r : exec Z) (freq : Z) (c : syscall) : call :=
  {| ret := r; freq_after := freq; calls := [c] |}.

(** The body of [getTimeUsec] under each branch of the chain. *)
Definition getTimeUsec_on (T : Time_typedef) (sdk : platform_sdk)
    (s : strategy) (rd : readings sdk) (freq : Z) : call :=
  match s with
  | WIN32 => getTimeUsec_win32 T (rd_win32 rd) freq
  | PSL1GHT =>
      (* return sysGetSystemTime(); *)
      stateless (Ok (to_Time T (rd_sysGetSystemTime rd))) freq
        Call_sysGetSystemTime
  | PS3 =>
      (* return sys_time_get_system_time(); *)
      stateless (Ok (to_Time T (rd_sys_time_get_system_time rd))) freq
        Call_sys_time_get_system_time
  | GEKKO =>
      (* return ticks_to_microsecs(gettime()); *)
      stateless (Ok (to_Time T (ticks_to_microsecs sdk (rd_gettime rd)))) freq
        Call_gettime
  | WIIU =>
      (* return ticks_to_us(OSGetSystemTime()); *)
      stateless (Ok (to_Time T (ticks_to_us sdk (rd_OSGetSystemTime rd)))) freq
        Call_OSGetSystemTime
  | SWITCH =>
      (* return (svcGetSystemTick() * 10) / 192; *)
      stateless
        (let* us := UInt64.div (UInt64.mul (rd_svcGetSystemTick rd) 10) 192 in
         Ok (to_Time T us))
        freq Call_svcGetSystemTick
  | N3DS =>
      (* return osGetTime() * 1000; *)
      stateless (Ok (to_Time T (UInt64.mul (rd_osGetTime rd) 1000))) freq
        Call_osGetTime
  | POSIX =>
      stateless (getTimeUsec_posix T (rd_ra_clock_gettime rd)) freq
        Call_ra_clock_gettime
  | EMSCRIPTEN =>
      (* return emscripten_get_now() * 1000; *)
      stateless
        (Ok (double_to_Time sdk T
               (double_mul_int sdk (rd_emscripten_get_now rd) 1000)))
        freq Call_emscripten_get_now
  | PS2 =>
      (* return ps2_clock() / PS2_CLOCKS_PER_MSEC * 1000; *)
      stateless
        (let* ms := UInt64.div (rd_ps2_clock rd) (PS2_CLOCKS_PER_MSEC sdk) in
         Ok (to_Time T (UInt64.mul ms 1000)))
        freq Call_ps2_clock
  | VITA =>
      (* return sceKernelGetSystemTimeWide(); *)
      stateless (Ok (to_Time T (rd_sceKernelGetSystemTimeWide rd))) freq
        Call_sceKernelGetSystemTimeWide
  end.

(** The translation unit: a diagnostic, or the compiled function. *)
Definition getTimeUsec (T : Time_typedef) (sdk : platform_sdk)
    (D : gset string) : (readings sdk -> Z -> call) + string :=
  match preprocess D with
  | inl s => inl (getTimeUsec_on T sdk s)
  | inr diagnostic => inr diagnostic
  end.

End SrcTimeC.

(** ** time.c (the copy at the root of CLoftwing) *)

Module TimeC.

(** The [#if] / [#elif] / [#else #error] chain of [getTimeUsec]:
    the branch compiled, or the diagnostic of [#error]. *)
Definition preprocess (D : gset string) : strategy + string :=
  if defined D "_WIN32" then inl WIN32
  else if defined D "__PSL1GHT__" then inl PSL1GHT
  else if negb (defined D "__PSL1GHT__") && defined D "__PS3__" then inl PS3
  else if defined D "GEKKO" then inl GEKKO
  else if defined D "WIIU" then inl WIIU
  else if defined D "SWITCH" || defined D "HAVE_LIBNX" then inl SWITCH
  else if defined D "_3DS" then inl N3DS
  else if defined D "_POSIX_MONOTONIC_CLOCK" || defined D "__QNX__"
          || defined D "ANDROID" || defined D "__MACH__"
          || defined D "DJGPP" then inl POSIX
  else if defined D "EMSCRIPTEN" then inl EMSCRIPTEN
  else if defined D "PS2" then inl PS2
  else if defined D "VITA" || defined D "PSP" then inl VITA
  else inr "Your platform does not have a timer function implemented in cpu_features_get_time_usec(). Cannot continue."%string.

(** [(count.QuadPart / freq.QuadPart * 1000000)
     + (count.QuadPart % freq.QuadPart * 1000000 / freq.QuadPart)]
    on [LONGLONG]. *)
Definition win32_usec (count freq : Z) : exec Z :=
  let* q := Int64.div count freq in
  let* r := Int64.rem count freq in
  let* d := Int64.div (Int64.mul r 1000000) freq in
  Ok (Int64.add (Int64.mul q 1000000) d).

(** The [_WIN32] branch.  [freq] is the [static LARGE_INTEGER freq]
    (zero when the process starts). *)
Definition getTimeUsec_win32 (T : Time_typedef) (os : win32_os) (freq : Z) : call :=
  (* if (!freq.QuadPart && !QueryPerformanceFrequency(&freq)) return 0; *)
  let '(returns_early, freq1, calls1) :=
    if freq =? 0 then
      match QueryPerformanceFrequency os with
      | QPF_fails => (true, freq, [Call_QueryPerformanceFrequency])
      | QPF_succeeds f => (false, f, [Call_QueryPerformanceFrequency])
      end
    else (false, freq, [])
  in
  if returns_early : bool then
    {| ret := Ok (to_Time T 0); freq_after := freq1; calls := calls1 |}
  else
    (* if (!QueryPerformanceCounter(&count)) return 0; *)
    match QueryPerformanceCounter os with
    | QPC_fails =>
        {| ret := Ok (to_Time T 0); freq_after := freq1;
           calls := calls1 ++ [Call_QueryPerformanceCounter] |}
    | QPC_succeeds count =>
        {| ret := (let* us := win32_usec count freq1 in Ok (to_Time T us));
           freq_after := freq1;
           calls := calls1 ++ [Call_QueryPerformanceCounter] |}
    end.

(** [tv.tv_sec * INT64_C(1000000) + (tv.tv_nsec + 500) / 1000]. *)
Definition posix_usec (tv : timespec) : exec Z :=
  let* us := Int64.div (Int64.add (tv_nsec tv) 500) 1000 in
  Ok (Int64.add (Int64.mul (tv_sec tv) 1000000) us).

(** The [_POSIX_MONOTONIC_CLOCK] branch. *)
Definition getTimeUsec_posix (T : Time_typedef) (r : clock_gettime_result) : exec Z :=
  (* if (ra_clock_gettime(CLOCK_MONOTONIC, &tv) < 0) return 0; *)
  if clock_status r <? 0 then Ok (to_Time T 0)
  else let* us := posix_usec (clock_tv r) in Ok (to_Time T us).

(** A branch that keeps no state. *)
Definition stateless (r : exec Z) (freq : Z) (c : syscall) : call :=
  {| ret := r; freq_after := freq; calls := [c] |}.

(** The body of [getTimeUsec] under each branch of the chain. *)
Definition getTimeUsec_on (T : Time_typedef) (sdk : platform_sdk)
    (s : strategy) (rd : readings sdk) (freq : Z) : call :=
  match s with
  | WIN32 => getTimeUsec_win32 T (rd_win32 rd) freq
  | PSL1GHT =>
      (* return sysGetSystemTime(); *)
      stateless (Ok (to_Time T (rd_sysGetSystemTime rd))) freq
        Call_sysGetSystemTime
  | PS3 =>
      (* return sys_time_get_system_time(); *)
      stateless (Ok (to_Time T (rd_sys_time_get_system_time rd))) freq
        Call_sys_time_get_system_time
  | GEKKO =>
      (* return ticks_to_microsecs(gettime()); *)
      stateless (Ok (to_Time T (ticks_to_microsecs sdk (rd_gettime rd)))) freq
        Call_gettime
  | WIIU =>
      (* return ticks_to_us(OSGetSystemTime()); *)
      stateless (Ok (to_Time T (ticks_to_us sdk (rd_OSGetSystemTime rd)))) freq
        Call_OSGetSystemTime
  | SWITCH =>
      (* return (svcGetSystemTick() * 10) / 192; *)
      stateless
        (let* us := UInt64.div (UInt64.mul (rd_svcGetSystemTick rd) 10) 192 in
         Ok (to_Time T us))
        freq Call_svcGetSystemTick
  | N3DS =>
      (* return osGetTime() * 1000; *)
      stateless (Ok (to_Time T (UInt64.mul (rd_osGetTime rd) 1000))) freq
        Call_osGetTime
  | POSIX =>
      stateless (getTimeUsec_posix T (rd_ra_clock_gettime rd)) freq
        Call_ra_clock_gettime
  | EMSCRIPTEN =>
      (* return emscripten_get_now() * 1000; *)
      stateless
        (Ok (double_to_Time sdk T
               (double_mul_int sdk (rd_emscripten_get_now rd) 1000)))
        freq Call_emscripten_get_now
  | PS2 =>
      (* return ps2_clock() / PS2_CLOCKS_PER_MSEC * 1000; *)
      stateless
        (let* ms := UInt64.div (rd_ps2_clock rd) (PS2_CLOCKS_PER_MSEC sdk) in
         Ok (to_Time T (UInt64.mul ms 1000)))
        freq Call_ps2_clock
  | VITA =>
      (* return sceKernelGetSystemTimeWide(); *)
      stateless (Ok (to_Time T (rd_sceKernelGetSystemTimeWide rd))) freq
        Call_sceKernelGetSystemTimeWide
  end.

(** The translation unit: a diagnostic, or the compiled function. *)
Definition getTimeUsec (T : Time_typedef) (sdk : platform_sdk)
    (D : gset string) : (readings sdk -> Z -> call) + string :=
  match preprocess D with
  | inl s => inl (getTimeUsec_on T sdk s)
  | inr diagnostic => inr diagnostic
  end.

End TimeC.

(** ** Successive calls *)

(** Successive calls in one process over any body [step]; the cache after a
    call is the cache before the next, and a trap ends the process. *)
Fixpoint run_calls {R : Type} (step : R -> Z -> call) (rds : list R)
    (freq : Z) : list call :=
  match rds with
  | [] => []
  | rd :: rest =>
      let c := step rd freq in
      c :: match ret c with
           | Ok _ => run_calls step rest (freq_after c)
           | Trap _ => []
           end
  end.

(** One call of the [_WIN32] branch, seen from the frequency cache. *)
Definition cache_step (T : Time_typedef) (freq freq' : Z) : Prop :=
  exists os, freq_after (SrcTimeC.getTimeUsec_win32 T os freq) = freq'.

(** The Win32 contract of a successful frequency query: the frequency it
    stores is not zero. *)
Definition QPF_contract (os : win32_os) : Prop :=
  forall f, QueryPerformanceFrequency os = QPF_succeeds f -> f <> 0.

(** The frequency the return expression of a call divides by: the cache
    when it is set, else what the query stores. *)
Definition frequency_in_use (os : win32_os) (freq0 freq : Z) : Prop :=
  (freq0 <> 0 /\ freq = freq0) \/
  (freq0 = 0 /\ QueryPerformanceFrequency os = QPF_succeeds freq).

(** ** The conversion formulas in the spec's words *)

(** The split formula [(count / freq) * 1_000_000
    + (count % freq) * 1_000_000 / freq] over any arithmetic. *)
Definition split_expr (mul add div rem : Z -> Z -> Z) (count freq : Z) : Z :=
  add (mul (div count freq) 1000000) (div (mul (rem count freq) 1000000) freq).

(** ... in exact integer arithmetic, *)
Definition split_usec : Z -> Z -> Z := split_expr Z.mul Z.add Z.div Z.modulo.

(** ... and on [LONGLONG]. *)
Definition split_usec_int64 : Z -> Z -> Z :=
  split_expr Int64.mul Int64.add Z.quot Z.rem.

(** The naive formula [floor(count * 1_000_000 / freq)]. *)
Definition naive_usec (count freq : Z) : Z := count * 1000000 / freq.

(** The exact values of the two products and of the sum of the Windows
    return expression. *)
Definition win32_intermediates (count freq : Z) : list Z :=
  [ Z.quot count freq * 1000000;
    Z.rem count freq * 1000000;
    Z.quot count freq * 1000000 + Z.quot (Z.rem count freq * 1000000) freq ].

(** None of them leaves the range of [LONGLONG]. *)
Definition win32_no_overflow (count freq : Z) : Prop :=
  Forall Int64.in_range (win32_intermediates count freq).

(** The exact values of the product and of the two sums of the POSIX return
    expression. *)
Definition posix_intermediates (tv : timespec) : list Z :=
  [ tv_sec tv * 1000000;
    tv_nsec tv + 500;
    tv_sec tv * 1000000 + Z.quot (tv_nsec tv + 500) 1000 ].

(** None of them leaves the range of [int64_t]. *)
Definition posix_no_overflow (tv : timespec) : Prop :=
  Forall Int64.in_range (posix_intermediates tv).

(** The order of POSIX readings: by seconds, then by nanoseconds. *)
Definition timespec_le (a b : timespec) : Prop :=
  tv_sec a < tv_sec b \/ (tv_sec a = tv_sec b /\ tv_nsec a <= tv_nsec b).

(** A clock read that succeeded with [tv]. *)
Definition clock_ok (tv : timespec) : clock_gettime_result :=
  {| clock_status := 0; clock_tv := tv |}.

(** A call on Windows whose counter read gives [count], the frequency
    query (if made) giving [freq]. *)
Definition counter_ok (freq count : Z) : win32_os :=
  {| QueryPerformanceFrequency := QPF_succeeds freq;
     QueryPerformanceCounter := QPC_succeeds count |}.

(** The POSIX formula [sec * 1_000_000 + (nsec + 500) / 1000] in exact
    integer arithmetic. *)
Definition posix_exact (tv : timespec) : Z :=
  tv_sec tv * 1000000 + (tv_nsec tv + 500) / 1000.

(** The nanosecond part of a reading is below one second. *)
Definition valid_nsec (tv : timespec) : Prop := 0 <= tv_nsec tv < 1000000000.

(** ** The chain, branch by branch *)

(** The condition written on the [#if] or [#elif] line of each branch. *)
Definition branch_condition (D : gset string) (s : strategy) : bool :=
  match s with
  | WIN32 => defined D "_WIN32"
  | PSL1GHT => defined D "__PSL1GHT__"
  | PS3 => negb (defined D "__PSL1GHT__") && defined D "__PS3__"
  | GEKKO => defined D "GEKKO"
  | WIIU => defined D "WIIU"
  | SWITCH => defined D "SWITCH" || defined D "HAVE_LIBNX"
  | N3DS => defined D "_3DS"
  | POSIX => defined D "_POSIX_MONOTONIC_CLOCK" || defined D "__QNX__"
             || defined D "ANDROID" || defined D "__MACH__"
             || defined D "DJGPP"
  | EMSCRIPTEN => defined D "EMSCRIPTEN"
  | PS2 => defined D "PS2"
  | VITA => defined D "VITA" || defined D "PSP"
  end.

(** The position of each branch in the source. *)
Definition branch_position (s : strategy) : nat :=
  match s with
  | WIN32 => 0
  | PSL1GHT => 1
  | PS3 => 2
  | GEKKO => 3
  | WIIU => 4
  | SWITCH => 5
  | N3DS => 6
  | POSIX => 7
  | EMSCRIPTEN => 8
  | PS2 => 9
  | VITA => 10
  end.

(** The instant of a POSIX reading in nanoseconds. *)
Definition timespec_ns (tv : timespec) : Z :=
  tv_sec tv * 1000000000 + tv_nsec tv.

(** What a Windows call does while the frequency is unknown and the query
    fails. *)
Definition frequency_unavailable : call :=
  {| ret := Ok 0; freq_after := 0; calls := [Call_QueryPerformanceFrequency] |}.

(** Every successful frequency query of [os] reports a positive frequency. *)
Definition QPF_positive (os : win32_os) : Prop :=
  forall f, QueryPerformanceFrequency os = QPF_succeeds f -> 0 < f.

(** An SDK and readings on which to evaluate the console branches. *)
Definition example_sdk : platform_sdk :=
  {| double := unit;
     double_mul_int := fun d _ => d;
     double_to_Time := fun _ _ => 0;
     ticks_to_microsecs := fun t => t;
     ticks_to_us := fun t => t;
     PS2_CLOCKS_PER_MSEC := 576 |}.

Definition example_readings (ticks ms clock : Z) : readings example_sdk :=
  {| rd_win32 := counter_ok 1 1;
     rd_sysGetSystemTime := 0;
     rd_sys_time_get_system_time := 0;
     rd_gettime := 0;
     rd_OSGetSystemTime := 0;
     rd_svcGetSystemTick := ticks;
     rd_osGetTime := ms;
     rd_ra_clock_gettime := clock_ok {| tv_sec := 0; tv_nsec := 0 |};
     rd_emscripten_get_now := (tt : double example_sdk);
     rd_ps2_clock := clock;
     rd_sceKernelGetSystemTimeWide := 0 |}.

(** * Properties *)

(** Membership in a literal list. *)
Ltac in_list := simpl; repeat first [left; reflexivity | right].

(** ** Machine arithmetic *)

Lemma Int64_wrap_in_range (z : Z) : Int64.in_range z -> Int64.wrap z = z.
Proof.
  unfold Int64.in_range, Int64.wrap, Int64.min_signed, Int64.max_signed,
    Int64.modulus.
  intros H. rewrite Z.mod_small by lia. lia.
Qed.

Lemma to_Time_in_range (T : Time_typedef) (z : Z) :
  0 <= z <= Int64.max_signed -> to_Time T z = z.
Proof.
  unfold Int64.max_signed. intros H. destruct T; simpl.
  - apply Int64_wrap_in_range.
    unfold Int64.in_range, Int64.min_signed, Int64.max_signed. lia.
  - unfold UInt64.wrap, UInt64.modulus. apply Z.mod_small. lia.
Qed.

Lemma to_Time_0 (T : Time_typedef) : to_Time T 0 = 0.
Proof. destruct T; reflexivity. Qed.

Lemma Int64_div_pos (a b : Z) : 0 < b -> Int64.div a b = Ok (Z.quot a b).
Proof.
  intros Hb. unfold Int64.div.
  destruct (Z.eqb_spec b 0) as [->|_]; [lia|].
  destruct (Z.eqb_spec b (-1)) as [->|_]; [lia|].
  now rewrite andb_false_r.
Qed.

Lemma Int64_rem_pos (a b : Z) : 0 < b -> Int64.rem a b = Ok (Z.rem a b).
Proof.
  intros Hb. unfold Int64.rem.
  destruct (Z.eqb_spec b 0) as [->|_]; [lia|].
  destruct (Z.eqb_spec b (-1)) as [->|_]; [lia|].
  now rewrite andb_false_r.
Qed.

(** With a positive divisor the Windows return expression does not trap and
    is the split formula on [LONGLONG]. *)
Lemma win32_usec_split (count freq : Z) :
  0 < freq -> SrcTimeC.win32_usec count freq = Ok (split_usec_int64 count freq).
Proof.
  intros Hf. unfold SrcTimeC.win32_usec.
  rewrite (Int64_div_pos count), Int64_rem_pos by assumption. simpl.
  rewrite Int64_div_pos by assumption. reflexivity.
Qed.

(** The split formula loses nothing: in exact arithmetic it is the naive one. *)
Lemma split_usec_naive (count freq : Z) :
  0 < freq -> split_usec count freq = naive_usec count freq.
Proof.
  intros Hf. unfold split_usec, split_expr, naive_usec.
  rewrite (Z.div_mod count freq) at 3 by lia.
  replace ((freq * (count / freq) + count mod freq) * 1000000)
    with (count / freq * 1000000 * freq + count mod freq * 1000000) by ring.
  rewrite Z.div_add_l by lia. reflexivity.
Qed.

(** Overflow-free evaluation of the Windows return expression gives the
    exact value of the split formula. *)
Lemma win32_usec_exact (count freq : Z) :
  0 <= count -> 0 < freq -> win32_no_overflow count freq ->
  split_usec_int64 count freq = split_usec count freq.
Proof.
  intros Hc Hf Hno. unfold win32_no_overflow, win32_intermediates in Hno.
  apply Forall_cons_1 in Hno as [Hq Hno].
  apply Forall_cons_1 in Hno as [Hr Hno].
  apply Forall_cons_1 in Hno as [Hs _].
  unfold split_usec_int64, split_usec, split_expr, Int64.mul, Int64.add.
  rewrite (Int64_wrap_in_range _ Hq), (Int64_wrap_in_range _ Hr).
  rewrite (Int64_wrap_in_range _ Hs).
  rewrite (Z.quot_div_nonneg count freq), (Z.rem_mod_nonneg count freq) by lia.
  rewrite Z.quot_div_nonneg; [reflexivity | | lia].
  apply Z.mul_nonneg_nonneg; [|lia]. apply Z.mod_pos_bound; lia.
Qed.

(** What overflow-freedom of the Windows expression amounts to, for a
    non-negative counter and a positive frequency. *)
Lemma win32_no_overflow_iff (count freq : Z) :
  0 <= count -> 0 < freq ->
  win32_no_overflow count freq <->
  (count mod freq) * 1000000 <= Int64.max_signed /\
  naive_usec count freq <= Int64.max_signed.
Proof.
  intros Hc Hf.
  pose proof (split_usec_naive count freq Hf) as Hsplit.
  unfold split_usec, split_expr in Hsplit.
  pose proof (Z.mod_pos_bound count freq Hf) as Hr.
  pose proof (Z.div_pos count freq Hc Hf) as Hq.
  assert (0 <= count mod freq * 1000000 / freq) as Hd
    by (apply Z.div_pos; lia).
  unfold win32_no_overflow, win32_intermediates.
  rewrite (Z.quot_div_nonneg count freq), (Z.rem_mod_nonneg count freq) by lia.
  rewrite (Z.quot_div_nonneg (count mod freq * 1000000) freq) by lia.
  rewrite Hsplit in *.
  unfold Int64.in_range, Int64.min_signed, Int64.max_signed.
  split.
  - intros Hno.
    apply Forall_cons_1 in Hno as [_ Hno].
    apply Forall_cons_1 in Hno as [H2 Hno].
    apply Forall_cons_1 in Hno as [H3 _]. lia.
  - intros [H2 H3]. repeat constructor; lia.
Qed.

(** Overflow-free evaluation of the POSIX return expression, on a reading
    with a non-negative nanosecond part. *)
Lemma posix_usec_exact (tv : timespec) :
  0 <= tv_nsec tv -> posix_no_overflow tv ->
  SrcTimeC.posix_usec tv = Ok (tv_sec tv * 1000000 + (tv_nsec tv + 500) / 1000).
Proof.
  intros Hn Hno. unfold posix_no_overflow, posix_intermediates in Hno.
  apply Forall_cons_1 in Hno as [Hp Hno].
  apply Forall_cons_1 in Hno as [Ha Hno].
  apply Forall_cons_1 in Hno as [Hs _].
  unfold SrcTimeC.posix_usec, Int64.add, Int64.mul.
  rewrite (Int64_wrap_in_range _ Ha), (Int64_div_pos _ 1000) by lia. simpl.
  rewrite (Int64_wrap_in_range _ Hp), (Int64_wrap_in_range _ Hs).
  rewrite Z.quot_div_nonneg by lia. reflexivity.
Qed.

(** A valid reading whose exact result fits evaluates without overflow. *)
Lemma posix_fits_no_overflow (tv : timespec) :
  0 <= tv_sec tv -> 0 <= tv_nsec tv < 1000000000 ->
  tv_sec tv * 1000000 + (tv_nsec tv + 500) / 1000 <= Int64.max_signed ->
  posix_no_overflow tv.
Proof.
  intros Hs Hn Hfit.
  assert (0 <= (tv_nsec tv + 500) / 1000) as Hd by (apply Z.div_pos; lia).
  unfold posix_no_overflow, posix_intermediates.
  rewrite Z.quot_div_nonneg by lia.
  unfold Int64.in_range, Int64.min_signed, Int64.max_signed in *.
  repeat constructor; lia.
Qed.

(** The Windows branch once the frequency in use and the counter are known. *)
Lemma getTimeUsec_win32_reads (T : Time_typedef) (os : win32_os)
    (freq0 freq count : Z) :
  frequency_in_use os freq0 freq ->
  QueryPerformanceCounter os = QPC_succeeds count ->
  ret (SrcTimeC.getTimeUsec_win32 T os freq0)
    = (let* us := SrcTimeC.win32_usec count freq in Ok (to_Time T us))
  /\ freq_after (SrcTimeC.getTimeUsec_win32 T os freq0) = freq.
Proof.
  intros [[Hne ->] | [-> Hq]] Hc; unfold SrcTimeC.getTimeUsec_win32.
  - destruct (Z.eqb_spec freq0 0) as [?|_]; [contradiction|].
    rewrite Hc. split; reflexivity.
  - simpl. rewrite Hq, Hc. split; reflexivity.
Qed.

(** ** Failure paths *)

Lemma frequency_failure_returns_zero (T : Time_typedef) (os : win32_os) :
  QueryPerformanceFrequency os = QPF_fails ->
  ret (SrcTimeC.getTimeUsec_win32 T os 0) = Ok 0.
Proof.
  intros Hq. unfold SrcTimeC.getTimeUsec_win32. cbn [Z.eqb].
  rewrite Hq. cbn [ret]. now rewrite to_Time_0.
Qed.

Lemma counter_failure_returns_zero (T : Time_typedef) (os : win32_os)
    (freq : Z) :
  QueryPerformanceCounter os = QPC_fails ->
  ret (SrcTimeC.getTimeUsec_win32 T os freq) = Ok 0.
Proof.
  intros Hc. unfold SrcTimeC.getTimeUsec_win32.
  destruct (freq =? 0); [destruct (QueryPerformanceFrequency os)|];
    rewrite ?Hc; cbn [ret]; now rewrite to_Time_0.
Qed.

(** C1: a failed runtime query makes [getTimeUsec] return exactly zero, as
    an ordinary return value.  On the performance-counter branch: the
    frequency query fails while the cache is unset, or the counter read
    fails (whatever the cache holds); on the POSIX branch: the clock read
    returns a negative status. *)
Theorem C1_failed_query_returns_zero (T : Time_typedef) :
  (forall os,
     QueryPerformanceFrequency os = QPF_fails ->
     ret (SrcTimeC.getTimeUsec_win32 T os 0) = Ok 0) /\
  (forall os freq,
     QueryPerformanceCounter os = QPC_fails ->
     ret (SrcTimeC.getTimeUsec_win32 T os freq) = Ok 0) /\
  (forall r,
     clock_status r < 0 ->
     SrcTimeC.getTimeUsec_posix T r = Ok 0).
Proof.
  split; [|split].
  - apply frequency_failure_returns_zero.
  - apply counter_failure_returns_zero.
  - intros r Hs. unfold SrcTimeC.getTimeUsec_posix.
    destruct (Z.ltb_spec (clock_status r) 0) as [_|?]; [|lia].
    now rewrite to_Time_0.
Qed.

Lemma C1_failed_query_returns_zero_witness :
  ret (SrcTimeC.getTimeUsec_win32 Time_int64_t
         {| QueryPerformanceFrequency := QPF_fails;
            QueryPerformanceCounter := QPC_succeeds 123456789 |} 0) = Ok 0 /\
  ret (SrcTimeC.getTimeUsec_win32 Time_int64_t
         {| QueryPerformanceFrequency := QPF_succeeds 10000000;
            QueryPerformanceCounter := QPC_fails |} 10000000) = Ok 0 /\
  SrcTimeC.getTimeUsec_posix Time_uint64_t
    {| clock_status := -1;
       clock_tv := {| tv_sec := 0; tv_nsec := 0 |} |} = Ok 0.
Proof.
  split; [|split].
  - apply (proj1 (C1_failed_query_returns_zero Time_int64_t)). reflexivity.
  - apply (proj1 (proj2 (C1_failed_query_returns_zero Time_int64_t))).
    reflexivity.
  - apply (proj2 (proj2 (C1_failed_query_returns_zero Time_uint64_t))).
    simpl. lia.
Defined.

(** ** The POSIX conversion *)

(** C2, as stated, fails where the product overflows 64 bits: the reading
    [sec = 2^62], [nsec = 0] satisfies the claim's conditions, and the
    function returns [0], not [2^62 * 1_000_000], whichever 64-bit type
    [Time] is. *)
Lemma C2_counterexample :
  0 <= 4611686018427387904 /\ 0 <= 0 < 1000000000 /\
  SrcTimeC.getTimeUsec_posix Time_int64_t
    (clock_ok {| tv_sec := 4611686018427387904; tv_nsec := 0 |}) = Ok 0 /\
  SrcTimeC.getTimeUsec_posix Time_uint64_t
    (clock_ok {| tv_sec := 4611686018427387904; tv_nsec := 0 |}) = Ok 0 /\
  4611686018427387904 * 1000000 + (0 + 500) / 1000 <> 0.
Proof.
  split; [lia|]. split; [lia|].
  split; [vm_compute; reflexivity|]. split; [vm_compute; reflexivity|].
  vm_compute. discriminate.
Qed.

(** C2 (amended): for every successful POSIX clock reading [(sec, nsec)]
    with [sec >= 0], [0 <= nsec < 1_000_000_000] and
    [sec * 1_000_000 + (nsec + 500) / 1000 < 2^63], [getTimeUsec] returns
    [sec * 1_000_000 + (nsec + 500) / 1000] (integer division). *)
Theorem C2_posix_conversion (T : Time_typedef) (r : clock_gettime_result) :
  0 <= clock_status r ->
  0 <= tv_sec (clock_tv r) ->
  0 <= tv_nsec (clock_tv r) < 1000000000 ->
  tv_sec (clock_tv r) * 1000000 + (tv_nsec (clock_tv r) + 500) / 1000 < 2 ^ 63 ->
  SrcTimeC.getTimeUsec_posix T r
    = Ok (tv_sec (clock_tv r) * 1000000 + (tv_nsec (clock_tv r) + 500) / 1000).
Proof.
  intros Hst Hs Hn Hfit. unfold SrcTimeC.getTimeUsec_posix.
  destruct (Z.ltb_spec (clock_status r) 0) as [?|_]; [lia|].
  assert (0 <= (tv_nsec (clock_tv r) + 500) / 1000) as Hd
    by (apply Z.div_pos; lia).
  rewrite posix_usec_exact;
    [| lia | apply posix_fits_no_overflow; unfold Int64.max_signed; lia].
  simpl. rewrite to_Time_in_range; [reflexivity|].
  unfold Int64.max_signed. lia.
Qed.

Lemma C2_posix_conversion_witness :
  SrcTimeC.getTimeUsec_posix Time_int64_t
    (clock_ok {| tv_sec := 86400; tv_nsec := 123456789 |})
  = Ok (86400 * 1000000 + (123456789 + 500) / 1000).
Proof.
  apply (C2_posix_conversion Time_int64_t
           (clock_ok {| tv_sec := 86400; tv_nsec := 123456789 |}));
    vm_compute; intuition discriminate.
Defined.

(** C5, as stated, fails on its first example: [(sec=1, nsec=999_500)] is
    999.5 microseconds past the second, which the [+500] rule rounds up to
    1000: the result is [1_001_000], not [1_000_999]. *)
Lemma C5_counterexample :
  SrcTimeC.getTimeUsec_posix Time_int64_t
    (clock_ok {| tv_sec := 1; tv_nsec := 999500 |}) = Ok 1001000 /\
  SrcTimeC.getTimeUsec_posix Time_uint64_t
    (clock_ok {| tv_sec := 1; tv_nsec := 999500 |}) = Ok 1001000 /\
  1001000 <> 1000999.
Proof. repeat split; try reflexivity. discriminate. Qed.

(** C5 (amended): for the seconds/nanoseconds strategy, the input
    [(sec=1, nsec=999_500)] yields [1_001_000] microseconds, and the input
    [(sec=0, nsec=499)] yields [0] microseconds. *)
Theorem C5_posix_rounding_examples (T : Time_typedef) :
  SrcTimeC.getTimeUsec_posix T
    (clock_ok {| tv_sec := 1; tv_nsec := 999500 |}) = Ok 1001000 /\
  SrcTimeC.getTimeUsec_posix T
    (clock_ok {| tv_sec := 0; tv_nsec := 499 |}) = Ok 0.
Proof. destruct T; split; reflexivity. Qed.

(** ** The performance-counter conversion *)

(** C3, as stated, fails where the split expression overflows 64 bits:
    [count = 10^13 - 1] and [freq = 10^13] satisfy [count >= 0] and
    [freq > 0], the split expression and the naive quotient are both
    [999999], and the call returns [-844674] (or, for an unsigned [Time],
    [2^64 - 844674]). *)
Lemma C3_counterexample :
  0 <= 9999999999999 /\ 0 < 10000000000000 /\
  ret (SrcTimeC.getTimeUsec_win32 Time_int64_t
         (counter_ok 10000000000000 9999999999999) 0) = Ok (-844674) /\
  ret (SrcTimeC.getTimeUsec_win32 Time_uint64_t
         (counter_ok 10000000000000 9999999999999) 0)
    = Ok 18446744073708706942 /\
  split_usec 9999999999999 10000000000000 = 999999 /\
  naive_usec 9999999999999 10000000000000 = 999999.
Proof.
  split; [lia|]. split; [lia|]. repeat split; vm_compute; reflexivity.
Qed.

(** C3 (amended): for every performance-counter reading with [count >= 0]
    and [freq > 0] such that [(count % freq) * 1_000_000 < 2^63] and
    [floor(count * 1_000_000 / freq) < 2^63], the Windows branch returns the
    split expression
    [(count / freq) * 1_000_000 + (count % freq) * 1_000_000 / freq]
    (all integer division), and in exact integer arithmetic this split
    computation equals the naive [floor(count * 1_000_000 / freq)]. *)
Theorem C3_win32_split_exact (T : Time_typedef) (os : win32_os)
    (freq0 freq count : Z) :
  0 <= count -> 0 < freq ->
  (count mod freq) * 1000000 < 2 ^ 63 ->
  count * 1000000 / freq < 2 ^ 63 ->
  frequency_in_use os freq0 freq ->
  QueryPerformanceCounter os = QPC_succeeds count ->
  ret (SrcTimeC.getTimeUsec_win32 T os freq0) = Ok (split_usec count freq) /\
  split_usec count freq = naive_usec count freq.
Proof.
  intros Hc Hf Hr Hn Huse Hq.
  pose proof (split_usec_naive count freq Hf) as Hsplit.
  split; [|exact Hsplit].
  assert (win32_no_overflow count freq) as Hno.
  { apply win32_no_overflow_iff; [assumption | assumption |].
    unfold naive_usec, Int64.max_signed. lia. }
  destruct (getTimeUsec_win32_reads T os freq0 freq count Huse Hq) as [-> _].
  rewrite win32_usec_split by assumption.
  rewrite win32_usec_exact by assumption. cbn [exec_bind].
  rewrite to_Time_in_range; [reflexivity|].
  rewrite Hsplit. unfold naive_usec, Int64.max_signed.
  split; [apply Z.div_pos; lia | lia].
Qed.

Lemma C3_win32_split_exact_witness :
  ret (SrcTimeC.getTimeUsec_win32 Time_int64_t
         (counter_ok 3579545 123456789) 0)
    = Ok (split_usec 123456789 3579545) /\
  split_usec 123456789 3579545 = naive_usec 123456789 3579545.
Proof.
  apply (C3_win32_split_exact Time_int64_t (counter_ok 3579545 123456789)
           0 3579545 123456789).
  - lia.
  - lia.
  - vm_compute. reflexivity.
  - vm_compute. reflexivity.
  - right. split; reflexivity.
  - reflexivity.
Defined.

(** For a frequency between 1 MHz and [2^63 / 1_000_000] no counter value
    overflows the Windows expression. *)
Lemma win32_no_overflow_frequency_range (count freq : Z) :
  0 <= count <= Int64.max_signed ->
  1000000 <= freq -> (freq - 1) * 1000000 <= Int64.max_signed ->
  win32_no_overflow count freq.
Proof.
  intros Hc Hlo Hhi. apply win32_no_overflow_iff; [lia | lia |].
  pose proof (Z.mod_pos_bound count freq ltac:(lia)) as Hr.
  split; [nia|]. unfold naive_usec.
  assert (count * 1000000 / freq <= count * 1000000 / 1000000) as Hle
    by (apply Z.div_le_compat_l; nia).
  rewrite Z.div_mul in Hle by lia. lia.
Qed.

(** C4, as stated, fails: [count = 10^13 - 1] and [freq = 10^13] are in the
    claimed range, the product [(count % freq) * 1_000_000] is about
    [10^19 > 2^63], and the wrap-around result is [-844674] where exact
    arithmetic gives [999999]. *)
Lemma C4_counterexample :
  0 <= 9999999999999 < 2 ^ 63 /\ 0 < 10000000000000 < 2 ^ 63 /\
  ~ win32_no_overflow 9999999999999 10000000000000 /\
  SrcTimeC.win32_usec 9999999999999 10000000000000 = Ok (-844674) /\
  ret (SrcTimeC.getTimeUsec_win32 Time_int64_t
         (counter_ok 10000000000000 9999999999999) 0) = Ok (-844674) /\
  ret (SrcTimeC.getTimeUsec_win32 Time_uint64_t
         (counter_ok 10000000000000 9999999999999) 0)
    = Ok 18446744073708706942 /\
  split_usec 9999999999999 10000000000000 = 999999.
Proof.
  split; [lia|]. split; [lia|].
  split; [|repeat split; vm_compute; reflexivity].
  unfold win32_no_overflow, win32_intermediates. intros Hno.
  apply Forall_cons_1 in Hno as [_ Hno].
  apply Forall_cons_1 in Hno as [[_ Hr] _].
  vm_compute in Hr. apply Hr. reflexivity.
Qed.

(** C4 (amended): for every [count] and [freq] with [0 <= count < 2^63] and
    [0 < freq < 2^63] such that [(count % freq) * 1_000_000 < 2^63] and
    [floor(count * 1_000_000 / freq) < 2^63], no intermediate product or
    sum of the split computation overflows signed 64-bit arithmetic, and
    the wrap-around result equals the exact one, which the call returns. *)
Theorem C4_win32_no_overflow (T : Time_typedef) (count freq : Z) :
  0 <= count < 2 ^ 63 -> 0 < freq < 2 ^ 63 ->
  (count mod freq) * 1000000 < 2 ^ 63 ->
  count * 1000000 / freq < 2 ^ 63 ->
  win32_no_overflow count freq /\
  SrcTimeC.win32_usec count freq = Ok (split_usec count freq) /\
  ret (SrcTimeC.getTimeUsec_win32 T (counter_ok freq count) 0)
    = Ok (split_usec count freq).
Proof.
  intros Hc Hf Hr Hn.
  assert (win32_no_overflow count freq) as Hno.
  { apply win32_no_overflow_iff; [lia | lia |].
    unfold naive_usec, Int64.max_signed. lia. }
  assert (SrcTimeC.win32_usec count freq = Ok (split_usec count freq)) as Heq.
  { rewrite win32_usec_split by lia.
    rewrite win32_usec_exact by (assumption || lia). reflexivity. }
  split; [assumption|]. split; [assumption|].
  destruct (getTimeUsec_win32_reads T (counter_ok freq count) 0 freq count)
    as [-> _]; [right; split; reflexivity | reflexivity |].
  rewrite Heq. simpl. rewrite to_Time_in_range; [reflexivity|].
  rewrite split_usec_naive by lia. unfold naive_usec, Int64.max_signed.
  split; [apply Z.div_pos; lia | lia].
Qed.

Lemma C4_win32_no_overflow_witness :
  win32_no_overflow 9223372036854775807 10000000 /\
  SrcTimeC.win32_usec 9223372036854775807 10000000
    = Ok (split_usec 9223372036854775807 10000000) /\
  ret (SrcTimeC.getTimeUsec_win32 Time_int64_t
         (counter_ok 10000000 9223372036854775807) 0)
    = Ok (split_usec 9223372036854775807 10000000).
Proof.
  apply (C4_win32_no_overflow Time_int64_t 9223372036854775807 10000000);
    vm_compute; intuition discriminate.
Defined.

(** ** Monotonicity *)

Lemma StronglySorted_map_on {A : Type} (P : A -> Prop) (R : A -> A -> Prop)
    (f : A -> Z) (l : list A) :
  (forall x y, P x -> P y -> R x y -> f x <= f y) ->
  Forall P l -> StronglySorted R l -> StronglySorted Z.le (map f l).
Proof.
  intros Hmono HP Hsorted. induction Hsorted as [|x l Hl IH Hx]; simpl.
  - constructor.
  - apply Forall_cons_1 in HP as [HPx HPl]. constructor; [auto|].
    rewrite List.Forall_forall in Hx, HPl. apply List.Forall_forall.
    intros y Hy. apply List.in_map_iff in Hy as (z & <- & Hz). auto.
Qed.

Lemma naive_usec_mono (freq count1 count2 : Z) :
  0 < freq -> count1 <= count2 ->
  naive_usec count1 freq <= naive_usec count2 freq.
Proof.
  intros Hf Hle. unfold naive_usec. apply Z.div_le_mono; lia.
Qed.

Lemma posix_exact_mono (tv1 tv2 : timespec) :
  valid_nsec tv1 -> valid_nsec tv2 -> timespec_le tv1 tv2 ->
  posix_exact tv1 <= posix_exact tv2.
Proof.
  unfold valid_nsec, timespec_le, posix_exact. intros H1 H2 Hle.
  assert (0 <= (tv_nsec tv2 + 500) / 1000) by (apply Z.div_pos; lia).
  assert ((tv_nsec tv1 + 500) / 1000 <= 1000000499 / 1000)
    by (apply Z.div_le_mono; lia).
  change (1000000499 / 1000) with 1000000 in *.
  destruct Hle as [Hlt | [Heq Hle]].
  - lia.
  - rewrite Heq.
    assert ((tv_nsec tv1 + 500) / 1000 <= (tv_nsec tv2 + 500) / 1000)
      by (apply Z.div_le_mono; lia).
    lia.
Qed.

Lemma timespec_le_trans (a b c : timespec) :
  timespec_le a b -> timespec_le b c -> timespec_le a c.
Proof. unfold timespec_le. lia. Qed.

(** The Windows branch on an overflow-free reading returns the exact
    quotient and leaves the frequency in the cache. *)
Lemma getTimeUsec_win32_exact (T : Time_typedef) (os : win32_os)
    (freq0 freq count : Z) :
  0 <= count -> 0 < freq -> win32_no_overflow count freq ->
  frequency_in_use os freq0 freq ->
  QueryPerformanceCounter os = QPC_succeeds count ->
  ret (SrcTimeC.getTimeUsec_win32 T os freq0) = Ok (naive_usec count freq) /\
  freq_after (SrcTimeC.getTimeUsec_win32 T os freq0) = freq.
Proof.
  intros Hc Hf Hno Huse Hq.
  destruct (getTimeUsec_win32_reads T os freq0 freq count Huse Hq) as [-> ->].
  split; [|reflexivity].
  rewrite win32_usec_split, win32_usec_exact, split_usec_naive by assumption.
  simpl. rewrite to_Time_in_range; [reflexivity|].
  apply win32_no_overflow_iff in Hno as [_ Hn]; [|assumption..].
  split; [|assumption]. unfold naive_usec. apply Z.div_pos; lia.
Qed.

(** The POSIX branch on an overflow-free valid reading. *)
Lemma getTimeUsec_posix_exact (T : Time_typedef) (tv : timespec) :
  0 <= tv_sec tv -> valid_nsec tv -> posix_no_overflow tv ->
  SrcTimeC.getTimeUsec_posix T (clock_ok tv) = Ok (posix_exact tv).
Proof.
  unfold valid_nsec. intros Hs Hn Hno.
  unfold SrcTimeC.getTimeUsec_posix. simpl.
  rewrite posix_usec_exact by (assumption || lia). simpl.
  fold (posix_exact tv). rewrite to_Time_in_range; [reflexivity|].
  unfold posix_no_overflow, posix_intermediates in Hno.
  apply Forall_cons_1 in Hno as [_ Hno].
  apply Forall_cons_1 in Hno as [_ Hno].
  apply Forall_cons_1 in Hno as [[_ Hmax] _].
  rewrite Z.quot_div_nonneg in Hmax by lia. fold (posix_exact tv) in Hmax.
  split; [|assumption]. unfold posix_exact.
  assert (0 <= (tv_nsec tv + 500) / 1000) by (apply Z.div_pos; lia). lia.
Qed.

(** Successive Windows calls on overflow-free counter readings: from a
    cache that is unset or already holds [freq], every call returns the
    exact quotient. *)
Lemma run_win32_exact (T : Time_typedef) (freq : Z) (counts : list Z) :
  0 < freq ->
  Forall (fun c => 0 <= c /\ win32_no_overflow c freq) counts ->
  forall freq0, freq0 = 0 \/ freq0 = freq ->
  map ret (run_calls (SrcTimeC.getTimeUsec_win32 T)
             (map (counter_ok freq) counts) freq0)
  = map Ok (map (fun c => naive_usec c freq) counts).
Proof.
  intros Hf Hall. induction Hall as [|c counts [Hc Hno] _ IH];
    intros freq0 H0; simpl; [reflexivity|].
  assert (frequency_in_use (counter_ok freq c) freq0 freq) as Huse.
  { destruct H0 as [-> | ->].
    - right. split; reflexivity.
    - left. split; [lia | reflexivity]. }
  destruct (getTimeUsec_win32_exact T (counter_ok freq c) freq0 freq c
              Hc Hf Hno Huse eq_refl) as [Hret Hafter].
  rewrite Hret, Hafter. f_equal. apply IH. right. reflexivity.
Qed.

(** C6, as stated, fails where a conversion overflows 64 bits.  Windows:
    with [freq = 1], [count1 = 1 <= count2 = 2^58] convert to [1_000_000]
    and to [0].  POSIX: [(1, 0)] precedes [(2^58, 0)] and they convert to
    [1_000_000] and to [0].  Both whichever 64-bit type [Time] is. *)
Lemma C6_counterexample :
  (0 < 1 /\ 1 <= 288230376151711744 /\
   ret (SrcTimeC.getTimeUsec_win32 Time_int64_t (counter_ok 1 1) 1)
     = Ok 1000000 /\
   ret (SrcTimeC.getTimeUsec_win32 Time_int64_t
          (counter_ok 1 288230376151711744) 1) = Ok 0 /\
   ret (SrcTimeC.getTimeUsec_win32 Time_uint64_t (counter_ok 1 1) 1)
     = Ok 1000000 /\
   ret (SrcTimeC.getTimeUsec_win32 Time_uint64_t
          (counter_ok 1 288230376151711744) 1) = Ok 0) /\
  (timespec_le {| tv_sec := 1; tv_nsec := 0 |}
     {| tv_sec := 288230376151711744; tv_nsec := 0 |} /\
   SrcTimeC.getTimeUsec_posix Time_int64_t
     (clock_ok {| tv_sec := 1; tv_nsec := 0 |}) = Ok 1000000 /\
   SrcTimeC.getTimeUsec_posix Time_int64_t
     (clock_ok {| tv_sec := 288230376151711744; tv_nsec := 0 |}) = Ok 0 /\
   SrcTimeC.getTimeUsec_posix Time_uint64_t
     (clock_ok {| tv_sec := 1; tv_nsec := 0 |}) = Ok 1000000 /\
   SrcTimeC.getTimeUsec_posix Time_uint64_t
     (clock_ok {| tv_sec := 288230376151711744; tv_nsec := 0 |}) = Ok 0) /\
  ~ 1000000 <= 0.
Proof.
  split; [|split].
  - split; [lia|]. split; [lia|]. repeat split; vm_compute; reflexivity.
  - split; [left; simpl; lia|]. repeat split; vm_compute; reflexivity.
  - lia.
Qed.

(** C6 (amended): on non-negative readings that convert without signed
    64-bit overflow, each conversion is monotone non-decreasing in its raw
    reading: for fixed [freq > 0], [0 <= count1 <= count2] implies that the
    Windows call on [count1] returns at most what it returns on [count2];
    and for POSIX readings with [sec >= 0] and [0 <= nsec < 1_000_000_000]
    ordered by [(sec, nsec)] lexicographically, the earlier reading converts
    to a timestamp at most the later one.  Hence, for successive such raw
    readings that are non-decreasing, the successive returned timestamps
    are non-decreasing. *)
Theorem C6_monotone (T : Time_typedef) :
  (forall freq0 freq count1 count2,
     0 < freq -> freq0 = 0 \/ freq0 = freq ->
     0 <= count1 -> count1 <= count2 ->
     win32_no_overflow count1 freq -> win32_no_overflow count2 freq ->
     exists t1 t2,
       ret (SrcTimeC.getTimeUsec_win32 T (counter_ok freq count1) freq0)
         = Ok t1 /\
       ret (SrcTimeC.getTimeUsec_win32 T (counter_ok freq count2) freq0)
         = Ok t2 /\
       t1 <= t2) /\
  (forall tv1 tv2,
     0 <= tv_sec tv1 -> valid_nsec tv1 -> valid_nsec tv2 ->
     timespec_le tv1 tv2 ->
     posix_no_overflow tv1 -> posix_no_overflow tv2 ->
     exists t1 t2,
       SrcTimeC.getTimeUsec_posix T (clock_ok tv1) = Ok t1 /\
       SrcTimeC.getTimeUsec_posix T (clock_ok tv2) = Ok t2 /\
       t1 <= t2) /\
  (forall freq counts,
     0 < freq ->
     Forall (fun c => 0 <= c /\ win32_no_overflow c freq) counts ->
     Sorted Z.le counts ->
     exists ts,
       map ret (run_calls (SrcTimeC.getTimeUsec_win32 T)
                  (map (counter_ok freq) counts) 0) = map Ok ts /\
       StronglySorted Z.le ts) /\
  (forall tvs,
     Forall (fun tv => 0 <= tv_sec tv /\ valid_nsec tv /\ posix_no_overflow tv)
       tvs ->
     Sorted timespec_le tvs ->
     exists ts,
       map (fun tv => SrcTimeC.getTimeUsec_posix T (clock_ok tv)) tvs
         = map Ok ts /\
       StronglySorted Z.le ts).
Proof.
  split; [|split; [|split]].
  - intros freq0 freq count1 count2 Hf H0 Hc1 Hle Hno1 Hno2.
    assert (forall c, frequency_in_use (counter_ok freq c) freq0 freq) as Huse.
    { intros c. destruct H0 as [-> | ->].
      - right. split; reflexivity.
      - left. split; [lia | reflexivity]. }
    exists (naive_usec count1 freq), (naive_usec count2 freq).
    split; [|split].
    + apply (getTimeUsec_win32_exact T _ freq0 freq count1); auto.
    + apply (getTimeUsec_win32_exact T _ freq0 freq count2); auto. lia.
    + apply naive_usec_mono; assumption.
  - intros tv1 tv2 Hs1 Hv1 Hv2 Hle Hno1 Hno2.
    exists (posix_exact tv1), (posix_exact tv2). split; [|split].
    + apply getTimeUsec_posix_exact; assumption.
    + apply getTimeUsec_posix_exact; try assumption.
      unfold timespec_le in Hle. lia.
    + apply posix_exact_mono; assumption.
  - intros freq counts Hf Hall Hsorted.
    exists (map (fun c => naive_usec c freq) counts). split.
    + apply run_win32_exact; auto.
    + apply (StronglySorted_map_on (fun _ => True) Z.le).
      * intros x y _ _ Hxy. apply naive_usec_mono; assumption.
      * apply List.Forall_forall. trivial.
      * apply Sorted.Sorted_StronglySorted; [|assumption].
        intros x y z. apply Z.le_trans.
  - intros tvs Hall Hsorted. exists (map posix_exact tvs). split.
    + rewrite map_map. apply map_ext_Forall.
      eapply Forall_impl; [exact Hall|]. simpl.
      intros tv (Hs & Hv & Hno). apply getTimeUsec_posix_exact; assumption.
    + apply (StronglySorted_map_on valid_nsec timespec_le).
      * apply posix_exact_mono.
      * eapply Forall_impl; [exact Hall|]. simpl. tauto.
      * apply Sorted.Sorted_StronglySorted; [|assumption].
        intros x y z. apply timespec_le_trans.
Qed.

Lemma C6_monotone_witness :
  (exists t1 t2,
     ret (SrcTimeC.getTimeUsec_win32 Time_int64_t
            (counter_ok 10000000 5) 0) = Ok t1 /\
     ret (SrcTimeC.getTimeUsec_win32 Time_int64_t
            (counter_ok 10000000 123456789) 0) = Ok t2 /\
     t1 <= t2) /\
  (exists t1 t2,
     SrcTimeC.getTimeUsec_posix Time_uint64_t
       (clock_ok {| tv_sec := 0; tv_nsec := 999999999 |}) = Ok t1 /\
     SrcTimeC.getTimeUsec_posix Time_uint64_t
       (clock_ok {| tv_sec := 1; tv_nsec := 0 |}) = Ok t2 /\
     t1 <= t2) /\
  (exists ts,
     map ret (run_calls (SrcTimeC.getTimeUsec_win32 Time_int64_t)
                (map (counter_ok 10000000) [0; 5; 123456789]) 0)
       = map Ok ts /\
     StronglySorted Z.le ts) /\
  (exists ts,
     map (fun tv => SrcTimeC.getTimeUsec_posix Time_uint64_t (clock_ok tv))
       [ {| tv_sec := 0; tv_nsec := 0 |};
         {| tv_sec := 0; tv_nsec := 999999999 |};
         {| tv_sec := 1; tv_nsec := 0 |} ] = map Ok ts /\
     StronglySorted Z.le ts).
Proof.
  split; [|split; [|split]].
  - apply (proj1 (C6_monotone Time_int64_t) 0 10000000 5 123456789);
      try lia; repeat constructor; vm_compute; discriminate.
  - apply (proj1 (proj2 (C6_monotone Time_uint64_t))
             {| tv_sec := 0; tv_nsec := 999999999 |}
             {| tv_sec := 1; tv_nsec := 0 |});
      try (unfold valid_nsec, timespec_le; simpl; lia);
      repeat constructor; vm_compute; discriminate.
  - apply (proj1 (proj2 (proj2 (C6_monotone Time_int64_t)))
             10000000 [0; 5; 123456789]); [lia | |].
    + repeat constructor; vm_compute; discriminate.
    + repeat constructor; vm_compute; discriminate.
  - apply (proj2 (proj2 (proj2 (C6_monotone Time_uint64_t)))
             [ {| tv_sec := 0; tv_nsec := 0 |};
               {| tv_sec := 0; tv_nsec := 999999999 |};
               {| tv_sec := 1; tv_nsec := 0 |} ]).
    + repeat constructor; vm_compute; discriminate.
    + repeat constructor; unfold timespec_le; simpl; lia.
Defined.

(** ** The frequency cache *)

Lemma cache_step_set (T : Time_typedef) (freq freq' : Z) :
  freq <> 0 -> cache_step T freq freq' -> freq' = freq.
Proof.
  intros Hne [os <-]. unfold SrcTimeC.getTimeUsec_win32.
  destruct (Z.eqb_spec freq 0) as [?|_]; [contradiction|].
  destruct (QueryPerformanceCounter os); reflexivity.
Qed.

(** C7: successive calls of the Windows branch, seen as steps over the
    static frequency cache.  When the cache is nonzero at the start of a
    call, the frequency query is not performed and the call leaves the
    cache unchanged; when the cache is zero and the frequency query fails,
    the cache stays unset and the next call queries again; a successful
    query sets the cache, and once it holds a nonzero value it holds that
    value in every state reachable afterwards. *)
Theorem C7_frequency_cache (T : Time_typedef) :
  (forall os freq,
     freq <> 0 ->
     ~ In Call_QueryPerformanceFrequency
         (calls (SrcTimeC.getTimeUsec_win32 T os freq)) /\
     freq_after (SrcTimeC.getTimeUsec_win32 T os freq) = freq) /\
  (forall os,
     QueryPerformanceFrequency os = QPF_fails ->
     freq_after (SrcTimeC.getTimeUsec_win32 T os 0) = 0 /\
     forall os',
       In Call_QueryPerformanceFrequency
         (calls (SrcTimeC.getTimeUsec_win32 T os'
                   (freq_after (SrcTimeC.getTimeUsec_win32 T os 0))))) /\
  (forall os f,
     QueryPerformanceFrequency os = QPF_succeeds f ->
     freq_after (SrcTimeC.getTimeUsec_win32 T os 0) = f) /\
  (forall freq freq',
     freq <> 0 -> rtc (cache_step T) freq freq' -> freq' = freq).
Proof.
  split; [|split; [|split]].
  - intros os freq Hne. unfold SrcTimeC.getTimeUsec_win32.
    destruct (Z.eqb_spec freq 0) as [?|_]; [contradiction|].
    destruct (QueryPerformanceCounter os); simpl; split;
      try reflexivity; intros [Hin | []]; discriminate Hin.
  - intros os Hq.
    assert (freq_after (SrcTimeC.getTimeUsec_win32 T os 0) = 0) as Hafter.
    { unfold SrcTimeC.getTimeUsec_win32. simpl. rewrite Hq. reflexivity. }
    split; [exact Hafter|]. intros os'. rewrite Hafter.
    unfold SrcTimeC.getTimeUsec_win32. simpl.
    destruct (QueryPerformanceFrequency os'); simpl; [left; reflexivity|].
    destruct (QueryPerformanceCounter os'); simpl; left; reflexivity.
  - intros os f Hq. unfold SrcTimeC.getTimeUsec_win32. simpl. rewrite Hq.
    destruct (QueryPerformanceCounter os); reflexivity.
  - intros freq freq' Hne Hsteps.
    induction Hsteps as [freq | freq mid freq' Hstep _ IH]; [reflexivity|].
    apply (cache_step_set T) in Hstep; [|assumption]. subst mid. auto.
Qed.

Lemma C7_frequency_cache_witness :
  (~ In Call_QueryPerformanceFrequency
       (calls (SrcTimeC.getTimeUsec_win32 Time_int64_t
                 (counter_ok 3 123456789) 10000000)) /\
   freq_after (SrcTimeC.getTimeUsec_win32 Time_int64_t
                 (counter_ok 3 123456789) 10000000) = 10000000) /\
  freq_after (SrcTimeC.getTimeUsec_win32 Time_int64_t
                {| QueryPerformanceFrequency := QPF_fails;
                   QueryPerformanceCounter := QPC_succeeds 5 |} 0) = 0 /\
  freq_after (SrcTimeC.getTimeUsec_win32 Time_int64_t
                (counter_ok 10000000 5) 0) = 10000000 /\
  freq_after (SrcTimeC.getTimeUsec_win32 Time_int64_t
                (counter_ok 3 7)
                (freq_after (SrcTimeC.getTimeUsec_win32 Time_int64_t
                               (counter_ok 3 5) 10000000))) = 10000000.
Proof.
  destruct (C7_frequency_cache Time_int64_t) as (Hset & Hfail & Hok & Hreach).
  split; [|split; [|split]].
  - apply Hset. lia.
  - apply Hfail. reflexivity.
  - apply Hok. reflexivity.
  - apply Hreach; [lia|].
    eapply rtc_l; [exists (counter_ok 3 5); reflexivity|].
    eapply rtc_l; [exists (counter_ok 3 7); reflexivity|].
    apply rtc_refl.
Defined.

(** ** Division by the cached frequency *)

Lemma Int64_div_nonzero (a b : Z) :
  b <> 0 ->
  Int64.div a b = Ok (Z.quot a b) \/ Int64.div a b = Trap DivideOverflow.
Proof.
  intros Hb. unfold Int64.div.
  destruct (Z.eqb_spec b 0) as [?|_]; [contradiction|].
  destruct ((a =? Int64.min_signed) && (b =? -1)); auto.
Qed.

Lemma Int64_rem_nonzero (a b : Z) :
  b <> 0 ->
  Int64.rem a b = Ok (Z.rem a b) \/ Int64.rem a b = Trap DivideOverflow.
Proof.
  intros Hb. unfold Int64.rem.
  destruct (Z.eqb_spec b 0) as [?|_]; [contradiction|].
  destruct ((a =? Int64.min_signed) && (b =? -1)); auto.
Qed.

(** With a nonzero divisor the Windows return expression does not divide
    by zero. *)
Lemma win32_usec_not_div0 (count freq : Z) :
  freq <> 0 -> SrcTimeC.win32_usec count freq <> Trap DivideByZero.
Proof.
  intros Hf. unfold SrcTimeC.win32_usec.
  destruct (Int64_div_nonzero count freq Hf) as [-> | ->];
    cbn [exec_bind]; [|discriminate].
  destruct (Int64_rem_nonzero count freq Hf) as [-> | ->];
    cbn [exec_bind]; [|discriminate].
  destruct (Int64_div_nonzero (Int64.mul (Z.rem count freq) 1000000) freq Hf)
    as [-> | ->]; cbn [exec_bind]; discriminate.
Qed.

Lemma bind_not_div0 (T : Time_typedef) (m : exec Z) :
  m <> Trap DivideByZero ->
  (let* us := m in Ok (to_Time T us)) <> Trap DivideByZero.
Proof. destruct m as [us|t]; cbn [exec_bind]; [discriminate | auto]. Qed.

(** C10, as stated, fails: the guard tests the cache only before the
    frequency query.  From an unset cache, a query that succeeds and stores
    zero passes the guard, the counter is read, and the return expression
    divides by the zero the cache still holds. *)
Lemma C10_counterexample :
  ret (SrcTimeC.getTimeUsec_win32 Time_int64_t (counter_ok 0 5) 0)
    = Trap DivideByZero /\
  ret (SrcTimeC.getTimeUsec_win32 Time_uint64_t (counter_ok 0 5) 0)
    = Trap DivideByZero /\
  calls (SrcTimeC.getTimeUsec_win32 Time_int64_t (counter_ok 0 5) 0)
    = [Call_QueryPerformanceFrequency; Call_QueryPerformanceCounter] /\
  freq_after (SrcTimeC.getTimeUsec_win32 Time_int64_t (counter_ok 0 5) 0) = 0.
Proof. repeat split; vm_compute; reflexivity. Qed.

(** C10 (amended): on the Windows branch, provided that every successful
    frequency query stores a nonzero frequency ([QPF_contract]), the return
    expression divides by the cached frequency only in states where it is
    nonzero: the guard returns zero early, before the counter is read, when
    the cache is zero and the query fails.  So no call, and no call of any
    run of successive calls, divides by zero. *)
Theorem C10_no_division_by_zero (T : Time_typedef) (os : win32_os) (freq : Z) :
  QPF_contract os ->
  ret (SrcTimeC.getTimeUsec_win32 T os freq) <> Trap DivideByZero /\
  (forall count,
     QueryPerformanceCounter os = QPC_succeeds count ->
     In Call_QueryPerformanceCounter
       (calls (SrcTimeC.getTimeUsec_win32 T os freq)) ->
     freq_after (SrcTimeC.getTimeUsec_win32 T os freq) <> 0 /\
     ret (SrcTimeC.getTimeUsec_win32 T os freq)
       = (let* us := SrcTimeC.win32_usec count
                       (freq_after (SrcTimeC.getTimeUsec_win32 T os freq)) in
          Ok (to_Time T us))) /\
  (freq = 0 -> QueryPerformanceFrequency os = QPF_fails ->
   ret (SrcTimeC.getTimeUsec_win32 T os freq) = Ok 0 /\
   calls (SrcTimeC.getTimeUsec_win32 T os freq)
     = [Call_QueryPerformanceFrequency]) /\
  (forall oss,
     Forall QPF_contract oss ->
     Forall (fun c => ret c <> Trap DivideByZero)
       (run_calls (SrcTimeC.getTimeUsec_win32 T) oss freq)).
Proof.
  assert (forall os' freq',
            QPF_contract os' ->
            ret (SrcTimeC.getTimeUsec_win32 T os' freq') <> Trap DivideByZero)
    as Hcall.
  { intros os' freq' Hc.
    destruct (QueryPerformanceCounter os') as [|count] eqn:Hq.
    - rewrite (counter_failure_returns_zero T os' freq' Hq). discriminate.
    - destruct (Z.eq_dec freq' 0) as [-> | Hne].
      + destruct (QueryPerformanceFrequency os') as [|f] eqn:Hf.
        * rewrite (frequency_failure_returns_zero T os' Hf). discriminate.
        * destruct (getTimeUsec_win32_reads T os' 0 f count) as [-> _];
            [right; split; [reflexivity | assumption] | assumption |].
          apply bind_not_div0, win32_usec_not_div0. eauto.
      + destruct (getTimeUsec_win32_reads T os' freq' freq' count) as [-> _];
          [left; split; [assumption | reflexivity] | assumption |].
        apply bind_not_div0, win32_usec_not_div0. assumption. }
  intros Hc. split; [apply Hcall; assumption|]. split; [|split].
  - intros count Hq Hin.
    unfold SrcTimeC.getTimeUsec_win32 in *.
    destruct (Z.eqb_spec freq 0) as [-> | Hne].
    + destruct (QueryPerformanceFrequency os) as [|f] eqn:Hf; simpl in *.
      * destruct Hin as [Hin | []]. discriminate Hin.
      * rewrite Hq. simpl. split; [eauto | reflexivity].
    + rewrite Hq. simpl. split; [assumption | reflexivity].
  - intros -> Hf. unfold SrcTimeC.getTimeUsec_win32. simpl. rewrite Hf.
    simpl. rewrite to_Time_0. split; reflexivity.
  - intros oss Hall. revert freq.
    induction Hall as [|os' oss Hc' _ IH]; intros freq; simpl;
      [constructor|].
    constructor; [apply Hcall; assumption|].
    destruct (ret (SrcTimeC.getTimeUsec_win32 T os' freq));
      [apply IH | constructor].
Qed.

Lemma C10_no_division_by_zero_witness :
  QPF_contract (counter_ok 10000000 123456789) /\
  ret (SrcTimeC.getTimeUsec_win32 Time_int64_t
         (counter_ok 10000000 123456789) 0) <> Trap DivideByZero.
Proof.
  assert (QPF_contract (counter_ok 10000000 123456789)) as Hc.
  { intros f Hf. simpl in Hf. inversion Hf. lia. }
  split; [exact Hc|].
  apply (C10_no_division_by_zero Time_int64_t
           (counter_ok 10000000 123456789) 0 Hc).
Defined.

(** ** Build-time platform selection *)

Lemma defined_true (D : gset string) (m : string) :
  defined D m = true -> m ∈ D.
Proof. unfold defined. apply bool_decide_eq_true_1. Qed.

Lemma defined_false (D : gset string) (m : string) :
  m ∉ D -> defined D m = false.
Proof. unfold defined. apply bool_decide_eq_false_2. Qed.

(** The Windows branch is the first of the chain. *)
Lemma preprocess_WIN32 (D : gset string) :
  "_WIN32"%string ∈ D -> SrcTimeC.preprocess D = inl WIN32.
Proof.
  intros H. unfold SrcTimeC.preprocess, defined.
  rewrite bool_decide_eq_true_2 by assumption. reflexivity.
Qed.

(** The POSIX branch is compiled when one of its macros is defined and
    none of the macros of the branches before it. *)
Lemma preprocess_POSIX (D : gset string) (m : string) :
  (forall m',
     In m' [ "_WIN32"; "__PSL1GHT__"; "__PS3__"; "GEKKO"; "WIIU"; "SWITCH";
             "HAVE_LIBNX"; "_3DS" ]%string -> m' ∉ D) ->
  In m [ "_POSIX_MONOTONIC_CLOCK"; "__QNX__"; "ANDROID"; "__MACH__";
         "DJGPP" ]%string ->
  m ∈ D ->
  SrcTimeC.preprocess D = inl POSIX.
Proof.
  intros Hnone Hm HD. unfold SrcTimeC.preprocess.
  rewrite !(defined_false D) by (apply Hnone; in_list).
  cbn [negb andb orb].
  assert (defined D m = true) as Hdef
    by (unfold defined; apply bool_decide_eq_true_2; assumption).
  simpl in Hm.
  repeat (destruct Hm as [<- | Hm];
          [rewrite Hdef; rewrite ?orb_true_r; reflexivity|]).
  destruct Hm.
Qed.

(** Every branch that compiles is selected by a macro the chain tests. *)
Lemma preprocess_selected (D : gset string) (s : strategy) :
  SrcTimeC.preprocess D = inl s ->
  exists m, In m recognized_macros /\ m ∈ D.
Proof.
  unfold SrcTimeC.preprocess.
  repeat match goal with
         | |- context [defined D ?m] =>
             let H := fresh "H" in
             destruct (defined D m) eqn:H; cbn [negb andb orb];
             [ intros _; exists m; split;
               [in_list | apply defined_true; assumption] | ]
         end.
  discriminate.
Qed.

(** C8: when none of the macros the chain recognizes is defined, the
    translation unit does not compile: the preprocessor stops at [#error]
    with a diagnostic that names the missing timer function, and there is no
    compiled [getTimeUsec], hence no runtime fallback. *)
Theorem C8_unsupported_platform (T : Time_typedef) (sdk : platform_sdk)
    (D : gset string) :
  (forall m, In m recognized_macros -> m ∉ D) ->
  SrcTimeC.preprocess D
    = inr "Your platform does not have a timer function implemented in cpu_features_get_time_usec(). Cannot continue."%string /\
  SrcTimeC.getTimeUsec T sdk D
    = inr "Your platform does not have a timer function implemented in cpu_features_get_time_usec(). Cannot continue."%string /\
  (forall f, SrcTimeC.getTimeUsec T sdk D <> inl f) /\
  (forall diagnostic,
     SrcTimeC.preprocess D = inr diagnostic ->
     exists n, String.index 0 "timer function" diagnostic = Some n).
Proof.
  intros Hnone.
  assert (forall m, In m recognized_macros -> defined D m = false) as Hd.
  { intros m Hm. unfold defined. apply bool_decide_eq_false_2. auto. }
  assert (SrcTimeC.preprocess D
    = inr "Your platform does not have a timer function implemented in cpu_features_get_time_usec(). Cannot continue."%string) as Hpre.
  { unfold SrcTimeC.preprocess.
    rewrite !Hd by in_list.
    reflexivity. }
  split; [exact Hpre|].
  unfold SrcTimeC.getTimeUsec. rewrite Hpre.
  split; [reflexivity|]. split; [discriminate|].
  intros diagnostic Heq. inversion Heq. eexists. vm_compute. reflexivity.
Qed.

Lemma C8_unsupported_platform_witness :
  SrcTimeC.preprocess {[ "__linux__"%string ]}
    = inr "Your platform does not have a timer function implemented in cpu_features_get_time_usec(). Cannot continue."%string.
Proof.
  apply (C8_unsupported_platform Time_int64_t
           {| double := unit;
              double_mul_int := fun d _ => d;
              double_to_Time := fun _ _ => 0;
              ticks_to_microsecs := fun t => t;
              ticks_to_us := fun t => t;
              PS2_CLOCKS_PER_MSEC := 576 |}
           {[ "__linux__"%string ]}).
  intros m Hm. simpl in Hm.
  repeat (destruct Hm as [<- | Hm]; [set_solver|]). destruct Hm.
Defined.

(** ** The two copies *)

(** C9: the two copies of [getTimeUsec] are extensionally equal.  For every
    set of macros they select the same branch or stop at the same
    diagnostic; for every branch, raw readings and cache state the function
    of [src/time.c] does what the function of [time.c] does (same return
    value, same cache afterwards, same primitives called); and so for every
    sequence of readings over successive calls. *)
Theorem C9_copies_agree (T : Time_typedef) (sdk : platform_sdk) :
  (forall D, SrcTimeC.preprocess D = TimeC.preprocess D) /\
  (forall D, SrcTimeC.getTimeUsec T sdk D = TimeC.getTimeUsec T sdk D) /\
  (forall s rd freq,
     SrcTimeC.getTimeUsec_on T sdk s rd freq
       = TimeC.getTimeUsec_on T sdk s rd freq) /\
  (forall s rds freq,
     run_calls (SrcTimeC.getTimeUsec_on T sdk s) rds freq
       = run_calls (TimeC.getTimeUsec_on T sdk s) rds freq).
Proof.
  assert (forall s rd freq,
            SrcTimeC.getTimeUsec_on T sdk s rd freq
              = TimeC.getTimeUsec_on T sdk s rd freq) as Hon.
  { intros s rd freq. destruct s; reflexivity. }
  split; [|split; [|split]].
  - intros D. reflexivity.
  - intros D. unfold SrcTimeC.getTimeUsec, TimeC.getTimeUsec.
    change (TimeC.preprocess D) with (SrcTimeC.preprocess D).
    destruct (SrcTimeC.preprocess D); reflexivity.
  - exact Hon.
  - intros s rds. induction rds as [|rd rds IH]; intros freq; simpl;
      [reflexivity|].
    rewrite Hon. destruct (ret _); [rewrite IH|]; reflexivity.
Qed.

(** * Further properties of the branches *)

(** ** The chain as a first match *)

Lemma branch_position_inj (s s' : strategy) :
  branch_position s = branch_position s' -> s = s'.
Proof. destruct s, s'; simpl; intros H; congruence. Qed.

(** The chain of [src/time.c] over the conditions of its branches. *)
Lemma preprocess_chain (D : gset string) :
  SrcTimeC.preprocess D =
  if branch_condition D WIN32 then inl WIN32
  else if branch_condition D PSL1GHT then inl PSL1GHT
  else if branch_condition D PS3 then inl PS3
  else if branch_condition D GEKKO then inl GEKKO
  else if branch_condition D WIIU then inl WIIU
  else if branch_condition D SWITCH then inl SWITCH
  else if branch_condition D N3DS then inl N3DS
  else if branch_condition D POSIX then inl POSIX
  else if branch_condition D EMSCRIPTEN then inl EMSCRIPTEN
  else if branch_condition D PS2 then inl PS2
  else if branch_condition D VITA then inl VITA
  else inr "Your platform does not have a timer function implemented in cpu_features_get_time_usec(). Cannot continue."%string.
Proof. reflexivity. Qed.

(** What the chain selects holds its own condition and no earlier one; when
    it selects nothing, no condition holds. *)
Lemma preprocess_first_match (D : gset string) :
  match SrcTimeC.preprocess D with
  | inl s =>
      branch_condition D s = true /\
      forall s', (branch_position s' < branch_position s)%nat ->
                 branch_condition D s' = false
  | inr _ => forall s', branch_condition D s' = false
  end.
Proof.
  rewrite preprocess_chain.
  repeat match goal with
         | |- context [if branch_condition D ?s then _ else _] =>
             let H := fresh "H" in
             destruct (branch_condition D s) eqn:H;
             [ split; [assumption|];
               intros s' Hlt; destruct s'; simpl in Hlt;
               first [lia | assumption] | ]
         end.
  intros s'. destruct s'; assumption.
Qed.

(** X1: the translation unit compiles to a function exactly when at least
    one of the macros the chain tests is defined. *)
Theorem X1_compiles_iff_recognized (T : Time_typedef) (sdk : platform_sdk)
    (D : gset string) :
  (exists f, SrcTimeC.getTimeUsec T sdk D = inl f) <->
  (exists m, In m recognized_macros /\ m ∈ D).
Proof.
  unfold SrcTimeC.getTimeUsec. split.
  - intros [f Hf]. destruct (SrcTimeC.preprocess D) as [s|msg] eqn:Hpre;
      [|discriminate]. apply (preprocess_selected D s Hpre).
  - intros (m & Hin & HD).
    destruct (SrcTimeC.preprocess D) as [s|msg] eqn:Hpre; [eauto|].
    exfalso. pose proof (preprocess_first_match D) as Hfm.
    rewrite Hpre in Hfm.
    assert (defined D m = true) as Hdef
      by (unfold defined; apply bool_decide_eq_true_2; assumption).
    simpl in Hin.
    repeat (destruct Hin as [<- | Hin];
            [ pose proof (Hfm WIN32) as Hc;
              pose proof (Hfm PSL1GHT) as Hc1; pose proof (Hfm PS3) as Hc2;
              pose proof (Hfm GEKKO) as Hc3; pose proof (Hfm WIIU) as Hc4;
              pose proof (Hfm SWITCH) as Hc5; pose proof (Hfm N3DS) as Hc6;
              pose proof (Hfm POSIX) as Hc7;
              pose proof (Hfm EMSCRIPTEN) as Hc8;
              pose proof (Hfm PS2) as Hc9; pose proof (Hfm VITA) as Hc10;
              simpl in *;
              repeat match goal with
                     | H : _ || _ = false |- _ =>
                         apply orb_false_elim in H; destruct H
                     end;
              try congruence;
              (* [__PS3__]: the guard on [__PSL1GHT__] is open here *)
              rewrite Hc1 in Hc2; simpl in Hc2; congruence
            | ]).
    destruct Hin.
Qed.

(** X2: the chain is a first match.  A branch is the one compiled exactly
    when the condition on its own line holds and the condition of no branch
    written before it does; so at most one branch is compiled, and a macro
    of an earlier branch overrides every later one. *)
Theorem X2_chain_first_match (D : gset string) (s : strategy) :
  SrcTimeC.preprocess D = inl s <->
  (branch_condition D s = true /\
   forall s', (branch_position s' < branch_position s)%nat ->
              branch_condition D s' = false).
Proof.
  pose proof (preprocess_first_match D) as Hfm. split.
  - intros Hpre. rewrite Hpre in Hfm. exact Hfm.
  - intros [Hs Hbefore].
    destruct (SrcTimeC.preprocess D) as [s0|msg].
    + destruct Hfm as [Hs0 Hbefore0]. f_equal. apply branch_position_inj.
      destruct (Nat.lt_trichotomy (branch_position s0) (branch_position s))
        as [Hlt | [Heq | Hgt]].
      * rewrite (Hbefore s0 Hlt) in Hs0. discriminate.
      * exact Heq.
      * rewrite (Hbefore0 s Hgt) in Hs. discriminate.
    + rewrite (Hfm s) in Hs. discriminate.
Qed.

Lemma X2_chain_first_match_witness :
  SrcTimeC.preprocess {[ "ANDROID"%string; "EMSCRIPTEN"%string ]} = inl POSIX.
Proof.
  apply (proj2 (X2_chain_first_match
                  {[ "ANDROID"%string; "EMSCRIPTEN"%string ]} POSIX)).
  split; [vm_compute; reflexivity|].
  intros s' Hlt. destruct s'; simpl in Hlt; try lia; vm_compute; reflexivity.
Defined.

(** ** The POSIX conversion: rounding, zero, wrap-around, elapsed time *)

Lemma Int64_wrap_mod (z : Z) : Int64.wrap z mod 2 ^ 64 = z mod 2 ^ 64.
Proof.
  unfold Int64.wrap, Int64.min_signed, Int64.modulus.
  rewrite Zplus_mod_idemp_l. f_equal. lia.
Qed.

Lemma to_Time_mod (T : Time_typedef) (z : Z) :
  to_Time T z mod 2 ^ 64 = z mod 2 ^ 64.
Proof.
  destruct T; simpl.
  - apply Int64_wrap_mod.
  - unfold UInt64.wrap, UInt64.modulus. apply Z.mod_mod. lia.
Qed.

(** The exact POSIX value is within half a microsecond of the instant. *)
Lemma posix_exact_nearest (tv : timespec) :
  -500 < 1000 * posix_exact tv - timespec_ns tv <= 500.
Proof.
  unfold posix_exact, timespec_ns.
  pose proof (Z.div_mod (tv_nsec tv + 500) 1000 ltac:(lia)) as Hdm.
  pose proof (Z.mod_pos_bound (tv_nsec tv + 500) 1000 ltac:(lia)) as Hm.
  lia.
Qed.

(** X3: a successful POSIX reading that converts without overflow is
    rounded to the nearest microsecond, halves upwards: a thousand times
    the returned value differs from the instant in nanoseconds by more than
    -500 and at most 500. *)
Theorem X3_posix_rounds_to_nearest (T : Time_typedef) (tv : timespec) :
  0 <= tv_sec tv -> valid_nsec tv -> posix_no_overflow tv ->
  exists t,
    SrcTimeC.getTimeUsec_posix T (clock_ok tv) = Ok t /\
    -500 < 1000 * t - timespec_ns tv <= 500.
Proof.
  intros Hs Hv Hno. exists (posix_exact tv). split.
  - apply getTimeUsec_posix_exact; assumption.
  - apply posix_exact_nearest.
Qed.

Lemma X3_posix_rounds_to_nearest_witness :
  exists t,
    SrcTimeC.getTimeUsec_posix Time_int64_t
      (clock_ok {| tv_sec := 12; tv_nsec := 345678500 |}) = Ok t /\
    -500 < 1000 * t
           - timespec_ns {| tv_sec := 12; tv_nsec := 345678500 |} <= 500.
Proof.
  apply (X3_posix_rounds_to_nearest Time_int64_t
           {| tv_sec := 12; tv_nsec := 345678500 |}).
  - simpl. lia.
  - unfold valid_nsec. simpl. lia.
  - repeat constructor; vm_compute; discriminate.
Defined.



(** X5: whatever the seconds of a successful POSIX reading with a valid
    nanosecond part, the call returns a value (it never traps), and that
    value is the exact [sec * 1_000_000 + (nsec + 500) / 1000] modulo
    [2^64]: overflow wraps and loses nothing else. *)
Theorem X5_posix_exact_modulo (T : Time_typedef) (tv : timespec) :
  valid_nsec tv ->
  exists t,
    SrcTimeC.getTimeUsec_posix T (clock_ok tv) = Ok t /\
    t mod 2 ^ 64 = posix_exact tv mod 2 ^ 64.
Proof.
  unfold valid_nsec. intros Hv.
  unfold SrcTimeC.getTimeUsec_posix, SrcTimeC.posix_usec. cbn [clock_ok
    clock_status clock_tv Z.ltb Z.compare].
  rewrite Int64_div_pos by lia. cbn [exec_bind].
  eexists. split; [reflexivity|].
  rewrite to_Time_mod. unfold Int64.add, Int64.mul.
  rewrite Int64_wrap_mod.
  rewrite (Int64_wrap_in_range (tv_nsec tv + 500))
    by (unfold Int64.in_range, Int64.min_signed, Int64.max_signed; lia).
  rewrite Z.quot_div_nonneg by lia.
  rewrite <- Zplus_mod_idemp_l, Int64_wrap_mod, Zplus_mod_idemp_l.
  reflexivity.
Qed.

Lemma X5_posix_exact_modulo_witness :
  exists t,
    SrcTimeC.getTimeUsec_posix Time_int64_t
      (clock_ok {| tv_sec := 4611686018427387904; tv_nsec := 1500 |}) = Ok t /\
    t mod 2 ^ 64
    = posix_exact {| tv_sec := 4611686018427387904; tv_nsec := 1500 |}
      mod 2 ^ 64.
Proof.
  apply (X5_posix_exact_modulo Time_int64_t
           {| tv_sec := 4611686018427387904; tv_nsec := 1500 |}).
  unfold valid_nsec. simpl. lia.
Defined.



(** ** The performance-counter conversion: truncation, zero, elapsed time *)

(** The naive quotient is the number of whole microseconds. *)
Lemma naive_usec_bounds (count freq : Z) :
  0 < freq ->
  naive_usec count freq * freq <= count * 1000000
    < (naive_usec count freq + 1) * freq.
Proof.
  intros Hf. unfold naive_usec.
  pose proof (Z.mul_div_le (count * 1000000) freq Hf).
  pose proof (Z.mul_succ_div_gt (count * 1000000) freq Hf).
  lia.
Qed.

(** X7: a Windows call on a non-negative counter that converts without
    overflow returns the whole microseconds elapsed, truncated: the value
    [t] returned satisfies [t * freq <= count * 1_000_000 < (t + 1) * freq],
    so it never runs ahead of the counter and lags by less than one
    microsecond. *)
Theorem X7_win32_truncates (T : Time_typedef) (os : win32_os)
    (freq0 freq count : Z) :
  0 <= count -> 0 < freq -> win32_no_overflow count freq ->
  frequency_in_use os freq0 freq ->
  QueryPerformanceCounter os = QPC_succeeds count ->
  exists t,
    ret (SrcTimeC.getTimeUsec_win32 T os freq0) = Ok t /\
    t * freq <= count * 1000000 < (t + 1) * freq.
Proof.
  intros Hc Hf Hno Huse Hq. exists (naive_usec count freq). split.
  - apply (getTimeUsec_win32_exact T os freq0 freq count); assumption.
  - apply naive_usec_bounds. assumption.
Qed.

Lemma X7_win32_truncates_witness :
  exists t,
    ret (SrcTimeC.getTimeUsec_win32 Time_int64_t
           (counter_ok 3579545 123456789) 0) = Ok t /\
    t * 3579545 <= 123456789 * 1000000 < (t + 1) * 3579545.
Proof.
  apply (X7_win32_truncates Time_int64_t (counter_ok 3579545 123456789)
           0 3579545 123456789).
  - lia.
  - lia.
  - repeat constructor; vm_compute; discriminate.
  - right. split; reflexivity.
  - reflexivity.
Defined.

(** X8: for a frequency between 1 MHz and 9_223_372_036_855 Hz the Windows
    call is exact on every non-negative counter value a [LONGLONG] can
    hold: it returns [floor(count * 1_000_000 / freq)], which is at most
    the counter itself. *)
Theorem X8_win32_exact_for_usual_frequencies (T : Time_typedef)
    (os : win32_os) (freq0 freq count : Z) :
  0 <= count <= Int64.max_signed ->
  1000000 <= freq -> (freq - 1) * 1000000 <= Int64.max_signed ->
  frequency_in_use os freq0 freq ->
  QueryPerformanceCounter os = QPC_succeeds count ->
  ret (SrcTimeC.getTimeUsec_win32 T os freq0) = Ok (naive_usec count freq) /\
  naive_usec count freq <= count.
Proof.
  intros Hc Hlo Hhi Huse Hq. split.
  - apply (getTimeUsec_win32_exact T os freq0 freq count);
      try assumption; try lia.
    apply win32_no_overflow_frequency_range; assumption.
  - unfold naive_usec.
    assert (count * 1000000 / freq <= count * 1000000 / 1000000) as Hle
      by (apply Z.div_le_compat_l; nia).
    rewrite Z.div_mul in Hle by lia. exact Hle.
Qed.

Lemma X8_win32_exact_for_usual_frequencies_witness :
  ret (SrcTimeC.getTimeUsec_win32 Time_uint64_t
         (counter_ok 10000000 9223372036854775807) 10000000)
    = Ok (naive_usec 9223372036854775807 10000000) /\
  naive_usec 9223372036854775807 10000000 <= 9223372036854775807.
Proof.
  apply (X8_win32_exact_for_usual_frequencies Time_uint64_t
           (counter_ok 10000000 9223372036854775807)
           10000000 10000000 9223372036854775807).
  - vm_compute. split; discriminate.
  - lia.
  - vm_compute. discriminate.
  - left. split; [lia | reflexivity].
  - reflexivity.
Defined.

(** X9: on the Windows branch zero is also an ordinary result.  A call on a
    non-negative counter that converts without overflow returns zero
    exactly when less than one microsecond of ticks has elapsed
    ([count * 1_000_000 < freq]), the value returned when a query fails. *)
Theorem X9_win32_zero_result (T : Time_typedef) (os : win32_os)
    (freq0 freq count : Z) :
  0 <= count -> 0 < freq -> win32_no_overflow count freq ->
  frequency_in_use os freq0 freq ->
  QueryPerformanceCounter os = QPC_succeeds count ->
  (ret (SrcTimeC.getTimeUsec_win32 T os freq0) = Ok 0 <->
   count * 1000000 < freq).
Proof.
  intros Hc Hf Hno Huse Hq.
  destruct (getTimeUsec_win32_exact T os freq0 freq count Hc Hf Hno Huse Hq)
    as [-> _].
  pose proof (naive_usec_bounds count freq Hf) as Hb.
  split.
  - intros Heq. injection Heq as Heq. rewrite Heq in Hb. lia.
  - intros Hlt. f_equal. unfold naive_usec. apply Z.div_small. lia.
Qed.

Lemma X9_win32_zero_result_witness :
  ret (SrcTimeC.getTimeUsec_win32 Time_int64_t (counter_ok 10000000 9) 0)
    = Ok 0.
Proof.
  apply (proj2 (X9_win32_zero_result Time_int64_t (counter_ok 10000000 9)
                  0 10000000 9
                  ltac:(lia) ltac:(lia)
                  ltac:(repeat constructor; vm_compute; discriminate)
                  ltac:(right; split; reflexivity)
                  eq_refl)).
  lia.
Defined.



(** ** The Windows branch over successive calls *)

(** A call with a non-negative cache under positive frequencies returns a
    value and leaves the cache non-negative. *)
Lemma getTimeUsec_win32_returns (T : Time_typedef) (os : win32_os) (freq : Z) :
  0 <= freq -> QPF_positive os ->
  (exists t, ret (SrcTimeC.getTimeUsec_win32 T os freq) = Ok t) /\
  0 <= freq_after (SrcTimeC.getTimeUsec_win32 T os freq).
Proof.
  intros Hf Hpos.
  destruct (QueryPerformanceCounter os) as [|count] eqn:Hq.
  - split; [rewrite (counter_failure_returns_zero T os freq Hq); eauto|].
    unfold SrcTimeC.getTimeUsec_win32. rewrite Hq.
    destruct (Z.eqb_spec freq 0) as [-> | Hne];
      [destruct (QueryPerformanceFrequency os) as [|f] eqn:Hqf|];
      cbn [freq_after]; try lia.
    specialize (Hpos f Hqf). lia.
  - assert (exists freq1, frequency_in_use os freq freq1 /\ 0 < freq1
            \/ freq = 0 /\ QueryPerformanceFrequency os = QPF_fails)
      as [freq1 [[Huse Hpos1] | [-> Hfail]]].
    { destruct (Z.eq_dec freq 0) as [-> | Hne].
      - destruct (QueryPerformanceFrequency os) as [|f] eqn:Hqf.
        + exists 0. right. split; reflexivity.
        + exists f. left. split; [right; split; auto | exact (Hpos f Hqf)].
      - exists freq. left. split; [left; split; auto | lia]. }
    + destruct (getTimeUsec_win32_reads T os freq freq1 count Huse Hq)
        as [-> ->].
      rewrite win32_usec_split by assumption. cbn [exec_bind].
      split; [eauto | lia].
    + split; [rewrite (frequency_failure_returns_zero T os Hfail); eauto|].
      unfold SrcTimeC.getTimeUsec_win32. cbn [Z.eqb]. rewrite Hfail.
      cbn [freq_after]. lia.
Qed.

(** X11: when every successful frequency query reports a positive
    frequency, no call of the Windows branch traps, whatever the counter
    holds: a run of successive calls from an unset (or positive) cache
    returns a value at every call and is as long as the list of readings. *)
Theorem X11_win32_run_returns (T : Time_typedef) (oss : list win32_os)
    (freq : Z) :
  0 <= freq -> Forall QPF_positive oss ->
  length (run_calls (SrcTimeC.getTimeUsec_win32 T) oss freq) = length oss /\
  Forall (fun c => exists t, ret c = Ok t)
    (run_calls (SrcTimeC.getTimeUsec_win32 T) oss freq).
Proof.
  intros Hf Hall. revert freq Hf.
  induction Hall as [|os oss Hpos _ IH]; intros freq Hf; simpl;
    [split; [reflexivity | constructor]|].
  destruct (getTimeUsec_win32_returns T os freq Hf Hpos) as [[t Ht] Hafter].
  rewrite Ht. destruct (IH _ Hafter) as [Hlen Hok].
  split; [rewrite Hlen; reflexivity|].
  constructor; [eauto | exact Hok].
Qed.

Lemma X11_win32_run_returns_witness :
  length (run_calls (SrcTimeC.getTimeUsec_win32 Time_int64_t)
            [ {| QueryPerformanceFrequency := QPF_fails;
                 QueryPerformanceCounter := QPC_succeeds 5 |};
              counter_ok 10000000 (-9223372036854775808);
              {| QueryPerformanceFrequency := QPF_succeeds 3;
                 QueryPerformanceCounter := QPC_fails |} ] 0) = 3%nat.
Proof.
  apply (X11_win32_run_returns Time_int64_t
           [ {| QueryPerformanceFrequency := QPF_fails;
                QueryPerformanceCounter := QPC_succeeds 5 |};
             counter_ok 10000000 (-9223372036854775808);
             {| QueryPerformanceFrequency := QPF_succeeds 3;
                QueryPerformanceCounter := QPC_fails |} ] 0).
  - lia.
  - repeat constructor; intros f Hf; simpl in Hf;
      first [discriminate Hf | injection Hf as <-; lia].
Defined.

(** A call with the cache set keeps it and makes no frequency query. *)
Lemma getTimeUsec_win32_cache_set (T : Time_typedef) (os : win32_os)
    (freq : Z) :
  freq <> 0 ->
  freq_after (SrcTimeC.getTimeUsec_win32 T os freq) = freq /\
  ~ In Call_QueryPerformanceFrequency
      (calls (SrcTimeC.getTimeUsec_win32 T os freq)).
Proof.
  intros Hne. unfold SrcTimeC.getTimeUsec_win32.
  destruct (Z.eqb_spec freq 0) as [?|_]; [contradiction|].
  destruct (QueryPerformanceCounter os); cbn [freq_after calls app];
    (split; [reflexivity | intros [Hin | []]; discriminate Hin]).
Qed.

Lemma run_win32_cache_set (T : Time_typedef) (oss : list win32_os) (freq : Z) :
  freq <> 0 ->
  Forall (fun c => freq_after c = freq /\
                   ~ In Call_QueryPerformanceFrequency (calls c))
    (run_calls (SrcTimeC.getTimeUsec_win32 T) oss freq).
Proof.
  intros Hne. induction oss as [|os oss IH]; simpl; [constructor|].
  destruct (getTimeUsec_win32_cache_set T os freq Hne) as [Hafter Hcalls].
  constructor; [split; assumption|].
  destruct (ret _); [rewrite Hafter; exact IH | constructor].
Qed.

(** X12: the frequency is queried once.  In a run from an unset cache whose
    first call obtains a nonzero frequency [f], every call leaves [f] in the
    cache and no later call queries the frequency again; a call with the
    cache set does the same whatever the system would answer to a frequency
    query. *)
Theorem X12_win32_frequency_queried_once (T : Time_typedef) (os : win32_os)
    (oss : list win32_os) (f : Z) :
  f <> 0 ->
  QueryPerformanceFrequency os = QPF_succeeds f ->
  Forall (fun c => freq_after c = f)
    (run_calls (SrcTimeC.getTimeUsec_win32 T) (os :: oss) 0) /\
  Forall (fun c => ~ In Call_QueryPerformanceFrequency (calls c))
    (tail (run_calls (SrcTimeC.getTimeUsec_win32 T) (os :: oss) 0)) /\
  (forall os1 os2,
     QueryPerformanceCounter os1 = QueryPerformanceCounter os2 ->
     SrcTimeC.getTimeUsec_win32 T os1 f = SrcTimeC.getTimeUsec_win32 T os2 f).
Proof.
  intros Hne Hq.
  assert (freq_after (SrcTimeC.getTimeUsec_win32 T os 0) = f) as Hafter.
  { unfold SrcTimeC.getTimeUsec_win32. cbn [Z.eqb]. rewrite Hq.
    destruct (QueryPerformanceCounter os); reflexivity. }
  pose proof (run_win32_cache_set T oss f Hne) as Hrun.
  cbn [run_calls tail]. rewrite Hafter.
  split; [|split].
  - constructor; [exact Hafter|].
    destruct (ret _); [|constructor].
    eapply Forall_impl; [exact Hrun|]. simpl. tauto.
  - destruct (ret _); [|constructor].
    eapply Forall_impl; [exact Hrun|]. simpl. tauto.
  - intros os1 os2 Heq. unfold SrcTimeC.getTimeUsec_win32.
    destruct (Z.eqb_spec f 0) as [?|_]; [contradiction|].
    rewrite Heq. reflexivity.
Qed.

Lemma X12_win32_frequency_queried_once_witness :
  Forall (fun c => freq_after c = 10000000)
    (run_calls (SrcTimeC.getTimeUsec_win32 Time_int64_t)
       [counter_ok 10000000 5; counter_ok 3 7; counter_ok 0 9] 0).
Proof.
  apply (X12_win32_frequency_queried_once Time_int64_t
           (counter_ok 10000000 5) [counter_ok 3 7; counter_ok 0 9] 10000000).
  - lia.
  - reflexivity.
Defined.

(** X13: while the frequency query keeps failing, every call returns zero,
    makes exactly that one query, does not read the counter and leaves the
    cache unset, so the next call tries again. *)
Theorem X13_win32_retries_while_unavailable (T : Time_typedef)
    (oss : list win32_os) :
  Forall (fun os => QueryPerformanceFrequency os = QPF_fails) oss ->
  run_calls (SrcTimeC.getTimeUsec_win32 T) oss 0
    = map (fun _ => frequency_unavailable) oss.
Proof.
  intros Hall. induction Hall as [|os oss Hq _ IH]; simpl; [reflexivity|].
  assert (SrcTimeC.getTimeUsec_win32 T os 0 = frequency_unavailable) as ->.
  { unfold SrcTimeC.getTimeUsec_win32. cbn [Z.eqb]. rewrite Hq.
    unfold frequency_unavailable. rewrite to_Time_0. reflexivity. }
  cbn [ret freq_after frequency_unavailable]. rewrite IH. reflexivity.
Qed.

Lemma X13_win32_retries_while_unavailable_witness :
  run_calls (SrcTimeC.getTimeUsec_win32 Time_int64_t)
    [ {| QueryPerformanceFrequency := QPF_fails;
         QueryPerformanceCounter := QPC_succeeds 5 |};
      {| QueryPerformanceFrequency := QPF_fails;
         QueryPerformanceCounter := QPC_fails |} ] 0
  = [frequency_unavailable; frequency_unavailable].
Proof.
  apply (X13_win32_retries_while_unavailable Time_int64_t
           [ {| QueryPerformanceFrequency := QPF_fails;
                QueryPerformanceCounter := QPC_succeeds 5 |};
             {| QueryPerformanceFrequency := QPF_fails;
                QueryPerformanceCounter := QPC_fails |} ]).
  repeat constructor.
Defined.

(** ** The console branches *)

(** X15: the Switch branch converts ticks of the 19.2 MHz system counter:
    for a tick count with [0 <= ticks] and [ticks * 10 < 2^63] it returns
    the whole microseconds [t] with [192 * t <= 10 * ticks < 192 * (t + 1)]. *)
Theorem X15_switch_ticks (T : Time_typedef) (sdk : platform_sdk)
    (rd : readings sdk) (freq : Z) :
  0 <= rd_svcGetSystemTick rd ->
  rd_svcGetSystemTick rd * 10 < 2 ^ 63 ->
  exists t,
    ret (SrcTimeC.getTimeUsec_on T sdk SWITCH rd freq) = Ok t /\
    192 * t <= 10 * rd_svcGetSystemTick rd < 192 * (t + 1).
Proof.
  intros H0 Hmax.
  cbn [SrcTimeC.getTimeUsec_on SrcTimeC.stateless ret].
  unfold UInt64.div, UInt64.mul, UInt64.wrap, UInt64.modulus.
  cbn [Z.eqb exec_bind].
  rewrite Z.mod_small by lia.
  pose proof (Z.div_mod (rd_svcGetSystemTick rd * 10) 192 ltac:(lia)) as Hdm.
  pose proof (Z.mod_pos_bound (rd_svcGetSystemTick rd * 10) 192 ltac:(lia))
    as Hm.
  eexists. split; [reflexivity|].
  rewrite to_Time_in_range; [lia|].
  unfold Int64.max_signed. lia.
Qed.

Lemma X15_switch_ticks_witness :
  exists t,
    ret (SrcTimeC.getTimeUsec_on Time_uint64_t
           example_sdk SWITCH (example_readings 19200000 0 0) 0) = Ok t /\
    192 * t <= 10 * 19200000 < 192 * (t + 1).
Proof.
  apply (X15_switch_ticks Time_uint64_t example_sdk
           (example_readings 19200000 0 0) 0); simpl; lia.
Defined.



(** ** Caching and resolution *)

(** X17: caching the frequency does not change what is returned.  When the
    system answers every frequency query with the same nonzero [f], a run
    of successive Windows calls that starts with the cache unset returns,
    call by call, what the run returns that starts with [f] already in the
    cache. *)
Theorem X17_win32_cache_transparent (T : Time_typedef) (oss : list win32_os)
    (f : Z) :
  f <> 0 ->
  Forall (fun os => QueryPerformanceFrequency os = QPF_succeeds f) oss ->
  map ret (run_calls (SrcTimeC.getTimeUsec_win32 T) oss 0)
    = map ret (run_calls (SrcTimeC.getTimeUsec_win32 T) oss f).
Proof.
  intros Hne Hall. destruct Hall as [|os oss Hq Hall]; [reflexivity|].
  assert (ret (SrcTimeC.getTimeUsec_win32 T os 0)
            = ret (SrcTimeC.getTimeUsec_win32 T os f) /\
          freq_after (SrcTimeC.getTimeUsec_win32 T os 0) = f /\
          freq_after (SrcTimeC.getTimeUsec_win32 T os f) = f)
    as (Hret & Hafter0 & Hafterf).
  { unfold SrcTimeC.getTimeUsec_win32. cbn [Z.eqb]. rewrite Hq.
    destruct (Z.eqb_spec f 0) as [?|_]; [contradiction|].
    destruct (QueryPerformanceCounter os); cbn [ret freq_after];
      repeat split; reflexivity. }
  cbn [run_calls map]. rewrite Hret, Hafter0, Hafterf. reflexivity.
Qed.

Lemma X17_win32_cache_transparent_witness :
  map ret (run_calls (SrcTimeC.getTimeUsec_win32 Time_int64_t)
             [counter_ok 10000000 5; counter_ok 10000000 123456789] 0)
  = map ret (run_calls (SrcTimeC.getTimeUsec_win32 Time_int64_t)
               [counter_ok 10000000 5; counter_ok 10000000 123456789]
               10000000).
Proof.
  apply (X17_win32_cache_transparent Time_int64_t
           [counter_ok 10000000 5; counter_ok 10000000 123456789] 10000000).
  - lia.
  - repeat constructor.
Defined.

(** X18: readings at least one microsecond apart get different timestamps.
    For two Windows calls on non-negative counters that convert without
    overflow at the same frequency, [(count2 - count1) * 1_000_000 >= freq]
    gives a strictly larger timestamp; for two successful POSIX readings
    that convert without overflow, instants at least 1000 nanoseconds apart
    give a strictly larger timestamp. *)
Theorem X18_resolution (T : Time_typedef) :
  (forall os1 os2 freq1 freq2 freq count1 count2,
     0 < freq ->
     0 <= count1 -> win32_no_overflow count1 freq ->
     frequency_in_use os1 freq1 freq ->
     QueryPerformanceCounter os1 = QPC_succeeds count1 ->
     0 <= count2 -> win32_no_overflow count2 freq ->
     frequency_in_use os2 freq2 freq ->
     QueryPerformanceCounter os2 = QPC_succeeds count2 ->
     freq <= (count2 - count1) * 1000000 ->
     exists t1 t2,
       ret (SrcTimeC.getTimeUsec_win32 T os1 freq1) = Ok t1 /\
       ret (SrcTimeC.getTimeUsec_win32 T os2 freq2) = Ok t2 /\
       t1 < t2) /\
  (forall tv1 tv2,
     0 <= tv_sec tv1 -> valid_nsec tv1 -> posix_no_overflow tv1 ->
     0 <= tv_sec tv2 -> valid_nsec tv2 -> posix_no_overflow tv2 ->
     1000 <= timespec_ns tv2 - timespec_ns tv1 ->
     exists t1 t2,
       SrcTimeC.getTimeUsec_posix T (clock_ok tv1) = Ok t1 /\
       SrcTimeC.getTimeUsec_posix T (clock_ok tv2) = Ok t2 /\
       t1 < t2).
Proof.
  split.
  - intros os1 os2 freq1 freq2 freq count1 count2
      Hf Hc1 Hno1 Huse1 Hq1 Hc2 Hno2 Huse2 Hq2 Hapart.
    exists (naive_usec count1 freq), (naive_usec count2 freq).
    split;
      [apply (getTimeUsec_win32_exact T os1 freq1 freq count1); assumption|].
    split;
      [apply (getTimeUsec_win32_exact T os2 freq2 freq count2); assumption|].
    pose proof (naive_usec_bounds count1 freq Hf).
    pose proof (naive_usec_bounds count2 freq Hf).
    nia.
  - intros tv1 tv2 Hs1 Hv1 Hno1 Hs2 Hv2 Hno2 Hapart.
    exists (posix_exact tv1), (posix_exact tv2).
    split; [apply getTimeUsec_posix_exact; assumption|].
    split; [apply getTimeUsec_posix_exact; assumption|].
    pose proof (posix_exact_nearest tv1). pose proof (posix_exact_nearest tv2).
    lia.
Qed.

Lemma X18_resolution_witness :
  (exists t1 t2,
     ret (SrcTimeC.getTimeUsec_win32 Time_int64_t
            (counter_ok 10000000 19) 10000000) = Ok t1 /\
     ret (SrcTimeC.getTimeUsec_win32 Time_int64_t
            (counter_ok 10000000 29) 10000000) = Ok t2 /\
     t1 < t2) /\
  (exists t1 t2,
     SrcTimeC.getTimeUsec_posix Time_int64_t
       (clock_ok {| tv_sec := 0; tv_nsec := 999999499 |}) = Ok t1 /\
     SrcTimeC.getTimeUsec_posix Time_int64_t
       (clock_ok {| tv_sec := 1; tv_nsec := 499 |}) = Ok t2 /\
     t1 < t2).
Proof.
  split.
  - apply (proj1 (X18_resolution Time_int64_t)
             (counter_ok 10000000 19) (counter_ok 10000000 29)
             10000000 10000000 10000000 19 29);
      try lia; try reflexivity;
      try (left; split; [lia | reflexivity]);
      repeat constructor; vm_compute; discriminate.
  - apply (proj2 (X18_resolution Time_int64_t)
             {| tv_sec := 0; tv_nsec := 999999499 |}
             {| tv_sec := 1; tv_nsec := 499 |});
      try (simpl; lia); try (unfold valid_nsec; simpl; lia);
      try (unfold timespec_ns; simpl; lia);
      repeat constructor; vm_compute; discriminate.
Defined.
